(** * Polaris CLI: the [catalogs] command

    A shallow embedding of [regtests/client/python/cli/command/catalogs.py]:
    the [CatalogsCommand] dataclass, its [validate] method, the storage
    configuration builder [_build_storage_config_info] and the dispatcher
    [execute], followed by the properties established about them.

    Python values are modelled as follows.
    - An attribute annotated [str] holds either a string or [None] (the
      argument parser leaves an option that was not given at [None]); it is an
      [option string].  Truthiness ([if x], [not x]) is [truthy].
    - [allowed_locations] is a list or [None]: [option (list string)].
    - A [dict] of strings is a [gmap string string]; [{**a, **b}] is the
      union in which the bindings of [b] win.
    - A raised exception is the [Err] case of [result].
    - The remote API is a record of answers; what [execute] does to it is
      the trace of [event]s it returns together with its result. *)

From Stdlib Require Import Ascii String List Bool Arith.
From stdpp Require Import base option strings gmap fin_maps.

Open Scope string_scope.

(** ** Python values *)

Module Py.

(** A [str] attribute that may be [None]. *)
Abbreviation str := (option string).

(** A [List[str]] attribute that may be [None]. *)
Abbreviation strlist := (option (list string)).

(** [bool(x)] for a string or [None]: [None] and [''] are falsy. *)
Definition truthy (x : str) : bool :=
  match x with
  | Some s => negb (String.eqb s "")
  | None => false
  end.

(** [bool(x)] for a list or [None]: [None] and [[]] are falsy. *)
Definition truthy_list (x : strlist) : bool :=
  match x with
  | Some (_ :: _) => true
  | _ => false
  end.

(** [x or y]: the value of [x] when it is truthy, otherwise that of [y]. *)
Definition or (x y : str) : str := if truthy x then x else y.

(** [x == c] where [c] is a string constant. *)
Definition eq (x : str) (c : string) : bool :=
  match x with
  | Some s => String.eqb s c
  | None => false
  end.

(** [c.upper()] on one character, for the ASCII range: [a]..[z] are moved
    to [A]..[Z], every other byte is kept. *)
Definition upper_ascii (c : ascii) : ascii :=
  let n := nat_of_ascii c in
  if ((97 <=? n) && (n <=? 122))%nat then ascii_of_nat (n - 32) else c.

(** [s.upper()], for a string of ASCII characters ([is_ascii] below): on
    these [str.upper] moves [a]..[z] and nothing else.  The constants of
    [cli.constants] are such strings; a property that applies [upper] to a
    string that is not a constant assumes [is_ascii] of it. *)
Fixpoint upper (s : string) : string :=
  match s with
  | EmptyString => EmptyString
  | String c s' => String (upper_ascii c) (upper s')
  end.

(** [s.isascii()]: every character of [s] is below 128. *)
Fixpoint is_ascii (s : string) : bool :=
  match s with
  | EmptyString => true
  | String c s' => (nat_of_ascii c <? 128)%nat && is_ascii s'
  end.

(** The text an f-string inserts for [{x}]. *)
Definition format (x : str) : string :=
  match x with
  | Some s => s
  | None => "None"
  end.

End Py.

(** ** Exceptions and results *)

Inductive exn : Type :=
| Exception (msg : string)        (* [raise Exception(msg)] *)
| AttributeError (msg : string)   (* a method looked up on [None] *)
| ApiException (msg : string).    (* raised by the remote API client *)

Inductive result (A : Type) : Type :=
| Ok (a : A)
| Err (e : exn).
Arguments Ok {A} a.
Arguments Err {A} e.

#[export] Instance result_ret : MRet result := fun _ a => Ok a.
#[export] Instance result_bind : MBind result := fun _ _ f m =>
  match m with
  | Ok a => f a
  | Err e => Err e
  end.

Definition raise {A : Type} (e : exn) : result A := Err e.

Definition is_Err {A : Type} (r : result A) : Prop := ∃ e, r = Err e.

(** ** Constants of [cli.constants] *)

(** Modelled from the spec: the enumeration [StorageType] of [cli.constants]
    is not part of the sources; the spec names its members S3, AZURE and GCS,
    and the messages of [validate] and the examples of the class docstring
    give their values, the lower-case option values. *)
Module StorageType.
Definition S3 : string := "s3".
Definition AZURE : string := "azure".
Definition GCS : string := "gcs".
End StorageType.

(** Modelled from the spec: the enumeration [CatalogType] of [cli.constants]
    is not part of the sources; the spec names its members INTERNAL and
    EXTERNAL, whose values are the lower-case option values. *)
Module CatalogType.
Definition INTERNAL : string := "internal".
Definition EXTERNAL : string := "external".
End CatalogType.

(** Modelled from the spec: the class [Subcommands] of [cli.constants] is not
    part of the sources; the spec names the subcommands CREATE, UPDATE, GET,
    LIST and DELETE, and the class docstring shows them as typed on the
    command line. *)
Module Subcommands.
Definition CREATE : string := "create".
Definition DELETE : string := "delete".
Definition GET : string := "get".
Definition LIST : string := "list".
Definition UPDATE : string := "update".
End Subcommands.

(** ** The command *)

Record CatalogsCommand : Type := {
  catalogs_subcommand : Py.str;
  catalog_type : Py.str;
  remote_url : Py.str;
  default_base_location : Py.str;
  storage_type : Py.str;
  allowed_locations : Py.strlist;
  role_arn : Py.str;
  external_id : Py.str;
  user_arn : Py.str;
  tenant_id : Py.str;
  multi_tenant_app_name : Py.str;
  consent_url : Py.str;
  service_account : Py.str;
  catalog_name : Py.str;
  properties : gmap string string
}.

Section Validation.

Variable self : CatalogsCommand.

Definition _has_aws_storage_info : Py.str :=
  Py.or (Py.or (role_arn self) (external_id self)) (user_arn self).

Definition _has_azure_storage_info : Py.str :=
  Py.or (Py.or (tenant_id self) (multi_tenant_app_name self)) (consent_url self).

Definition _has_gcs_storage_info : Py.str :=
  service_account self.

(** The first statement of [validate]: what CREATE requires. *)
Definition validate_create : result unit :=
  if Py.eq (catalogs_subcommand self) Subcommands.CREATE then
    if negb (Py.truthy (storage_type self)) then
      raise (Exception "Missing required argument: --storage-type")
    else if negb (Py.truthy (default_base_location self)) then
      raise (Exception "Missing required argument: --default-base-location")
    else if Py.eq (catalog_type self) CatalogType.EXTERNAL then
      if negb (Py.truthy (remote_url self)) then
        raise (Exception ("Missing required argument for " ++ CatalogType.EXTERNAL
                          ++ " catalog: --remote-url"))
      else mret tt
    else mret tt
  else mret tt.

(** The second statement of [validate]: what UPDATE requires. *)
Definition validate_update : result unit :=
  if Py.eq (catalogs_subcommand self) Subcommands.UPDATE then
    if Py.truthy_list (allowed_locations self) then
      if negb (Py.truthy (storage_type self)) then
        raise (Exception ("Missing required argument when updating allowed locations"
                          ++ " for a catalog: --storage-type"))
      else mret tt
    else mret tt
  else mret tt.

(** The third statement of [validate]: the [if]/[elif]/[elif] chain on the
    storage type. *)
Definition validate_storage : result unit :=
  if Py.eq (storage_type self) StorageType.S3 then
    if negb (Py.truthy (role_arn self)) then
      raise (Exception "Missing required argument for storage type 's3': --role-arn")
    else if Py.truthy _has_azure_storage_info || Py.truthy _has_gcs_storage_info then
      raise (Exception ("Storage type 's3' supports the storage configurations --role-arn, "
                        ++ "--external-id, and --user-arn"))
    else mret tt
  else if Py.eq (storage_type self) StorageType.AZURE then
    if negb (Py.truthy (tenant_id self)) then
      raise (Exception "Missing required argument for storage type 'azure': --tenant-id")
    else if Py.truthy _has_aws_storage_info || Py.truthy _has_gcs_storage_info then
      raise (Exception ("Storage type 'azure' supports the storage configurations --tenant-id, "
                        ++ "--multi-tenant-app-name, and --consent-url"))
    else mret tt
  else if Py.truthy _has_aws_storage_info || Py.truthy _has_azure_storage_info then
    raise (Exception "Storage type 'gcs' supports the storage configuration: --service-account")
  else mret tt.

(** [CatalogsCommand.validate]: the three statements in sequence; the first
    exception raised is the one reported. *)
Definition validate : result unit :=
  validate_create ;; validate_update ;; validate_storage.

End Validation.

(** ** Storage configurations *)

(** The three storage configuration classes, with the keyword arguments
    [_build_storage_config_info] passes to each constructor, in its order. *)
Inductive StorageConfigInfo : Type :=
| AwsStorageConfigInfo
    (storage_type : string) (allowed_locations : Py.strlist)
    (role_arn external_id user_arn : Py.str)
| AzureStorageConfigInfo
    (storage_type : string) (allowed_locations : Py.strlist)
    (tenant_id multi_tenant_app_name consent_url : Py.str)
| GcpStorageConfigInfo
    (storage_type : string) (allowed_locations : Py.strlist)
    (tenant_id multi_tenant_app_name : Py.str).

(** The [storage_type] argument of a configuration. *)
Definition config_type (c : StorageConfigInfo) : string :=
  match c with
  | AwsStorageConfigInfo t _ _ _ _ => t
  | AzureStorageConfigInfo t _ _ _ _ => t
  | GcpStorageConfigInfo t _ _ _ => t
  end.

(** The [allowed_locations] argument of a configuration. *)
Definition config_allowed_locations (c : StorageConfigInfo) : Py.strlist :=
  match c with
  | AwsStorageConfigInfo _ l _ _ _ => l
  | AzureStorageConfigInfo _ l _ _ _ => l
  | GcpStorageConfigInfo _ l _ _ => l
  end.

(** [CatalogsCommand._build_storage_config_info].  [None] compares unequal
    to the three constants, so [upper] is only ever applied to a string. *)
Definition _build_storage_config_info (self : CatalogsCommand) : option StorageConfigInfo :=
  match storage_type self with
  | Some st =>
      if String.eqb st StorageType.S3 then
        Some (AwsStorageConfigInfo (Py.upper st) (allowed_locations self)
                (role_arn self) (external_id self) (user_arn self))
      else if String.eqb st StorageType.AZURE then
        Some (AzureStorageConfigInfo (Py.upper st) (allowed_locations self)
                (tenant_id self) (multi_tenant_app_name self) (consent_url self))
      else if String.eqb st StorageType.GCS then
        Some (GcpStorageConfigInfo (Py.upper st) (allowed_locations self)
                (tenant_id self) (multi_tenant_app_name self))
      else None
  | None => None
  end.

(** ** Catalogs and requests *)

(** Modelled from the spec: the class [Catalog] of [polaris.management] is not
    part of the sources; the spec gives a catalog returned by the service the
    attributes [name], [type], [properties] (a mutable map) and
    [entity_version] (an opaque version token). *)
Record Catalog : Type := {
  cat_type : string;
  cat_name : string;
  cat_properties : gmap string string;
  cat_entity_version : Z
}.

(** [catalog.properties = p]. *)
Definition set_properties (p : gmap string string) (c : Catalog) : Catalog :=
  {| cat_type := cat_type c;
     cat_name := cat_name c;
     cat_properties := p;
     cat_entity_version := cat_entity_version c |}.

(** [CatalogProperties(default_base_location=..., additional_properties=...)]. *)
Record CatalogProperties : Type := {
  cp_default_base_location : Py.str;
  cp_additional_properties : gmap string string
}.

(** The catalog of a create request: [ExternalCatalog(...)] or
    [PolarisCatalog(...)], with the keyword arguments [execute] passes. *)
Inductive NewCatalog : Type :=
| ExternalCatalog
    (type : string) (name : Py.str) (storage_config_info : option StorageConfigInfo)
    (remote_url : Py.str) (properties : CatalogProperties)
| PolarisCatalog
    (type : string) (name : Py.str) (storage_config_info : option StorageConfigInfo)
    (properties : CatalogProperties).

(** [CreateCatalogRequest(catalog=...)]. *)
Record CreateCatalogRequest : Type := {
  ccr_catalog : NewCatalog
}.

(** [UpdateCatalogRequest(current_entity_version=..., catalog=...,
    storage_config_info=...)]; an argument that is not passed is [None]. *)
Record UpdateCatalogRequest : Type := {
  ucr_current_entity_version : Z;
  ucr_catalog : Catalog;
  ucr_storage_config_info : option StorageConfigInfo
}.

(** ** The remote API *)

(** The answers of the [PolarisDefaultApi] passed to [execute]: each call
    returns or raises. *)
Record PolarisDefaultApi : Type := {
  create_catalog : CreateCatalogRequest → result unit;
  delete_catalog : Py.str → result unit;
  get_catalog : Py.str → result Catalog;
  list_catalogs : result (list Catalog);
  update_catalog : Py.str → UpdateCatalogRequest → result unit
}.

(** What [execute] does that can be seen from outside: the calls it makes on
    the API, with their arguments, and the catalogs it prints (as
    [print(catalog.to_json())]). *)
Inductive event : Type :=
| CreateCatalog (request : CreateCatalogRequest)
| DeleteCatalog (name : Py.str)
| GetCatalog (name : Py.str)
| ListCatalogs
| UpdateCatalog (name : Py.str) (request : UpdateCatalogRequest)
| PrintJson (catalog : Catalog).

(** A command: the events of a run, in order, and how it ended. *)
Definition cmd (A : Type) : Type := (list event * result A)%type.

#[export] Instance cmd_ret : MRet cmd := fun _ a => ([], Ok a).
#[export] Instance cmd_bind : MBind cmd := fun _ _ f m =>
  match m with
  | (t, Ok a) => let (t', r) := f a in ((t ++ t')%list, r)
  | (t, Err e) => (t, Err e)
  end.

(** A computation without events, run as a command. *)
Definition lift {A : Type} (r : result A) : cmd A := ([], r).

(** One event, then the answer that goes with it. *)
Definition call {A : Type} (ev : event) (answer : result A) : cmd A := ([ev], answer).

(** [for x in l: body(x)]. *)
Fixpoint for_each {A : Type} (l : list A) (body : A → cmd unit) : cmd unit :=
  match l with
  | [] => mret tt
  | x :: l' => body x ;; for_each l' body
  end.

(** [x.upper()] on an attribute: [None] has no method [upper]. *)
Definition str_upper (x : Py.str) : result string :=
  match x with
  | Some s => Ok (Py.upper s)
  | None => raise (AttributeError "'NoneType' object has no attribute 'upper'")
  end.

(** [{**a, **b}]: the bindings of [b] win. *)
Definition dict_merge (a b : gmap string string) : gmap string string := b ∪ a.

Section Execute.

Variable self : CatalogsCommand.
Variable api : PolarisDefaultApi.

(** The local [default_base_location_properties] of the UPDATE branch. *)
Definition default_base_location_properties : gmap string string :=
  match default_base_location self with
  | Some loc =>
      if Py.truthy (Some loc) then {[ "default-base-location" := loc ]} else ∅
  | None => ∅
  end.

(** The condition under which the UPDATE branch builds its request a
    second time, with a storage configuration. *)
Definition has_storage_option : bool :=
  Py.truthy_list (allowed_locations self)
  || Py.truthy (_has_aws_storage_info self)
  || Py.truthy (_has_azure_storage_info self)
  || Py.truthy (_has_gcs_storage_info self).

(** The request the UPDATE branch builds from the catalog it fetched. *)
Definition update_request (fetched : Catalog) : UpdateCatalogRequest :=
  let catalog :=
    set_properties (dict_merge default_base_location_properties (properties self)) fetched in
  let request :=
    {| ucr_current_entity_version := cat_entity_version catalog;
       ucr_catalog := catalog;
       ucr_storage_config_info := None |} in
  if has_storage_option then
    {| ucr_current_entity_version := cat_entity_version catalog;
       ucr_catalog := catalog;
       ucr_storage_config_info := _build_storage_config_info self |}
  else request.

(** The request the CREATE branch builds. *)
Definition create_request : result CreateCatalogRequest :=
  let config := _build_storage_config_info self in
  if Py.eq (catalog_type self) CatalogType.EXTERNAL then
    type ← str_upper (catalog_type self);
    mret {| ccr_catalog :=
              ExternalCatalog type (catalog_name self) config (remote_url self)
                {| cp_default_base_location := default_base_location self;
                   cp_additional_properties := properties self |} |}
  else
    type ← str_upper (catalog_type self);
    mret {| ccr_catalog :=
              PolarisCatalog type (catalog_name self) config
                {| cp_default_base_location := default_base_location self;
                   cp_additional_properties := properties self |} |}.

(** [CatalogsCommand.execute]. *)
Definition execute : cmd unit :=
  if Py.eq (catalogs_subcommand self) Subcommands.CREATE then
    request ← lift create_request;
    call (CreateCatalog request) (create_catalog api request)
  else if Py.eq (catalogs_subcommand self) Subcommands.DELETE then
    call (DeleteCatalog (catalog_name self)) (delete_catalog api (catalog_name self))
  else if Py.eq (catalogs_subcommand self) Subcommands.GET then
    catalog ← call (GetCatalog (catalog_name self)) (get_catalog api (catalog_name self));
    call (PrintJson catalog) (Ok tt)
  else if Py.eq (catalogs_subcommand self) Subcommands.LIST then
    catalogs ← call ListCatalogs (list_catalogs api);
    for_each catalogs (fun catalog => call (PrintJson catalog) (Ok tt))
  else if Py.eq (catalogs_subcommand self) Subcommands.UPDATE then
    catalog ← call (GetCatalog (catalog_name self)) (get_catalog api (catalog_name self));
    let request := update_request catalog in
    call (UpdateCatalog (catalog_name self) request)
         (update_catalog api (catalog_name self) request)
  else
    lift (raise (Exception (Py.format (catalogs_subcommand self)
                            ++ " is not supported in the CLI"))).

End Execute.

(** ** The exceptions of [validate] *)

Definition missing_storage_type : exn :=
  Exception "Missing required argument: --storage-type".
Definition missing_default_base_location : exn :=
  Exception "Missing required argument: --default-base-location".
Definition missing_remote_url : exn :=
  Exception "Missing required argument for external catalog: --remote-url".
Definition s3_needs_role_arn : exn :=
  Exception "Missing required argument for storage type 's3': --role-arn".
Definition s3_supports : exn :=
  Exception "Storage type 's3' supports the storage configurations --role-arn, --external-id, and --user-arn".
Definition azure_needs_tenant_id : exn :=
  Exception "Missing required argument for storage type 'azure': --tenant-id".
Definition azure_supports : exn :=
  Exception "Storage type 'azure' supports the storage configurations --tenant-id, --multi-tenant-app-name, and --consent-url".
Definition gcs_supports : exn :=
  Exception "Storage type 'gcs' supports the storage configuration: --service-account".

(** ** Sample invocations *)

Module Sample.

(** [polaris catalogs create c1 --type external --storage-type s3
    --default-base-location s3://b/p --remote-url https://x --role-arn ...] *)
Definition create_s3_external : CatalogsCommand :=
  {| catalogs_subcommand := Some "create"; catalog_type := Some "external";
     remote_url := Some "https://x"; default_base_location := Some "s3://b/p";
     storage_type := Some "s3"; allowed_locations := None;
     role_arn := Some "arn:aws:iam::1:role/r"; external_id := None; user_arn := None;
     tenant_id := None; multi_tenant_app_name := None; consent_url := None;
     service_account := None; catalog_name := Some "c1"; properties := ∅ |}.

(** A CREATE for S3 that gives an Azure tenant and no role. *)
Definition create_s3_tenant : CatalogsCommand :=
  {| catalogs_subcommand := Some "create"; catalog_type := Some "internal";
     remote_url := None; default_base_location := Some "s3://b/p";
     storage_type := Some "s3"; allowed_locations := None;
     role_arn := None; external_id := None; user_arn := None;
     tenant_id := Some "t1"; multi_tenant_app_name := None; consent_url := None;
     service_account := None; catalog_name := Some "c1"; properties := ∅ |}.

(** A CREATE for Azure that gives an AWS role and no tenant. *)
Definition create_azure_role : CatalogsCommand :=
  {| catalogs_subcommand := Some "create"; catalog_type := Some "internal";
     remote_url := None; default_base_location := Some "abfss://c@a/p";
     storage_type := Some "azure"; allowed_locations := None;
     role_arn := Some "arn:aws:iam::1:role/r"; external_id := None; user_arn := None;
     tenant_id := None; multi_tenant_app_name := None; consent_url := None;
     service_account := None; catalog_name := Some "c1"; properties := ∅ |}.

(** A CREATE for GCS with every storage field given. *)
Definition create_gcs : CatalogsCommand :=
  {| catalogs_subcommand := Some "create"; catalog_type := Some "internal";
     remote_url := None; default_base_location := Some "gs://b/p";
     storage_type := Some "gcs"; allowed_locations := Some ["gs://b/p"; "gs://b/q"];
     role_arn := None; external_id := None; user_arn := None;
     tenant_id := Some "t1"; multi_tenant_app_name := Some "app"; consent_url := None;
     service_account := Some "sa@p.iam"; catalog_name := Some "c1"; properties := ∅ |}.

(** A CREATE whose catalog type was never set. *)
Definition create_untyped : CatalogsCommand :=
  {| catalogs_subcommand := Some "create"; catalog_type := None;
     remote_url := None; default_base_location := Some "s3://b/p";
     storage_type := Some "s3"; allowed_locations := None;
     role_arn := Some "arn:aws:iam::1:role/r"; external_id := None; user_arn := None;
     tenant_id := None; multi_tenant_app_name := None; consent_url := None;
     service_account := None; catalog_name := Some "c1"; properties := ∅ |}.

(** [polaris catalogs get c1 --role-arn r]: no storage type, no service
    account, one AWS field. *)
Definition get_role_arn : CatalogsCommand :=
  {| catalogs_subcommand := Some "get"; catalog_type := None;
     remote_url := None; default_base_location := None;
     storage_type := None; allowed_locations := None;
     role_arn := Some "r"; external_id := None; user_arn := None;
     tenant_id := None; multi_tenant_app_name := None; consent_url := None;
     service_account := None; catalog_name := Some "c1"; properties := ∅ |}.

(** An UPDATE that gives a base location and two properties, one of them
    the base location again. *)
Definition update_merge : CatalogsCommand :=
  {| catalogs_subcommand := Some "update"; catalog_type := None;
     remote_url := None; default_base_location := Some "loc";
     storage_type := None; allowed_locations := None;
     role_arn := None; external_id := None; user_arn := None;
     tenant_id := None; multi_tenant_app_name := None; consent_url := None;
     service_account := None; catalog_name := Some "c1";
     properties := {[ "default-base-location" := "loc2"; "b" := "2" ]} |}.

(** An UPDATE that changes the role of an S3 catalog. *)
Definition update_role : CatalogsCommand :=
  {| catalogs_subcommand := Some "update"; catalog_type := None;
     remote_url := None; default_base_location := None;
     storage_type := Some "s3"; allowed_locations := None;
     role_arn := Some "arn:aws:iam::1:role/r2"; external_id := None; user_arn := None;
     tenant_id := None; multi_tenant_app_name := None; consent_url := None;
     service_account := None; catalog_name := Some "c1"; properties := ∅ |}.

(** [polaris catalogs update c1 --service-account sa@p.iam]: a storage
    field and no storage type. *)
Definition update_service_account : CatalogsCommand :=
  {| catalogs_subcommand := Some "update"; catalog_type := None;
     remote_url := None; default_base_location := None;
     storage_type := None; allowed_locations := None;
     role_arn := None; external_id := None; user_arn := None;
     tenant_id := None; multi_tenant_app_name := None; consent_url := None;
     service_account := Some "sa@p.iam"; catalog_name := Some "c1"; properties := ∅ |}.

(** The catalog the service holds under the name [c1]. *)
Definition c1 : Catalog :=
  {| cat_type := "INTERNAL"; cat_name := "c1";
     cat_properties := {[ "a" := "1" ]}; cat_entity_version := 7 |}.

(** A service that knows [c1] only and accepts every change. *)
Definition service : PolarisDefaultApi :=
  {| create_catalog := fun _ => Ok tt;
     delete_catalog := fun _ => Ok tt;
     get_catalog := fun name =>
       if Py.eq name "c1" then Ok c1 else Err (ApiException "Not Found");
     list_catalogs := Ok [c1];
     update_catalog := fun _ _ => Ok tt |}.

End Sample.

(** ** Further exceptions, and the events of a run *)

(** The exception of rule 2 of [validate]. *)
Definition missing_storage_type_for_update : exn :=
  Exception "Missing required argument when updating allowed locations for a catalog: --storage-type".

(** The exception of the last branch of [execute]. *)
Definition unsupported (subcommand : Py.str) : exn :=
  Exception (Py.format subcommand ++ " is not supported in the CLI").

(** The exception of [upper] looked up on [None]. *)
Definition no_upper : exn :=
  AttributeError "'NoneType' object has no attribute 'upper'".

(** The events that are calls on the API (a print is not). *)
Definition is_api_call (ev : event) : bool :=
  match ev with
  | PrintJson _ => false
  | _ => true
  end.

(** The calls that change what the service holds. *)
Definition is_mutation (ev : event) : bool :=
  match ev with
  | CreateCatalog _ | DeleteCatalog _ | UpdateCatalog _ _ => true
  | _ => false
  end.

(** The number of API calls of a run. *)
Definition api_calls (t : list event) : nat := length (List.filter is_api_call t).

(** The number of changing calls of a run. *)
Definition mutations (t : list event) : nat := length (List.filter is_mutation t).

(** [e] is an exception with which some call on [api] answers. *)
Definition raised_by (api : PolarisDefaultApi) (e : exn) : Prop :=
  (∃ request, create_catalog api request = Err e)
  ∨ (∃ name, delete_catalog api name = Err e)
  ∨ (∃ name, get_catalog api name = Err e)
  ∨ list_catalogs api = Err e
  ∨ (∃ name request, update_catalog api name request = Err e).

(** The call [ev] on [api] is answered with the exception [e]. *)
Definition answers (api : PolarisDefaultApi) (ev : event) (e : exn) : Prop :=
  match ev with
  | CreateCatalog request => create_catalog api request = Err e
  | DeleteCatalog name => delete_catalog api name = Err e
  | GetCatalog name => get_catalog api name = Err e
  | ListCatalogs => list_catalogs api = Err e
  | UpdateCatalog name request => update_catalog api name request = Err e
  | PrintJson _ => False
  end.

(** ** Further sample invocations *)

Module Case.


(** A command with nothing set. *)
Definition blank : CatalogsCommand :=
  {| catalogs_subcommand := None; catalog_type := None;
     remote_url := None; default_base_location := None;
     storage_type := None; allowed_locations := None;
     role_arn := None; external_id := None; user_arn := None;
     tenant_id := None; multi_tenant_app_name := None; consent_url := None;
     service_account := None; catalog_name := None; properties := ∅ |}.

(** [polaris catalogs <subcommand> <name>] with no option. *)
Definition plain (subcommand name : string) : CatalogsCommand :=
  {| catalogs_subcommand := Some subcommand; catalog_type := None;
     remote_url := None; default_base_location := None;
     storage_type := None; allowed_locations := None;
     role_arn := None; external_id := None; user_arn := None;
     tenant_id := None; multi_tenant_app_name := None; consent_url := None;
     service_account := None; catalog_name := Some name; properties := ∅ |}.

(** [polaris catalogs update c1 --allowed-location s3://b/q] with no
    storage type. *)
Definition update_locations : CatalogsCommand :=
  {| catalogs_subcommand := Some "update"; catalog_type := None;
     remote_url := None; default_base_location := None;
     storage_type := None; allowed_locations := Some ["s3://b/q"];
     role_arn := None; external_id := None; user_arn := None;
     tenant_id := None; multi_tenant_app_name := None; consent_url := None;
     service_account := None; catalog_name := Some "c1"; properties := ∅ |}.

(** An UPDATE that gives an external id and no role, for S3. *)
Definition update_external_id : CatalogsCommand :=
  {| catalogs_subcommand := Some "update"; catalog_type := None;
     remote_url := None; default_base_location := None;
     storage_type := Some "s3"; allowed_locations := None;
     role_arn := Some "arn:aws:iam::1:role/r"; external_id := Some "x1"; user_arn := None;
     tenant_id := None; multi_tenant_app_name := None; consent_url := None;
     service_account := None; catalog_name := Some "c1"; properties := ∅ |}.

(** An UPDATE for Azure with a tenant and a consent URL. *)
Definition update_azure : CatalogsCommand :=
  {| catalogs_subcommand := Some "update"; catalog_type := None;
     remote_url := None; default_base_location := None;
     storage_type := Some "azure"; allowed_locations := None;
     role_arn := None; external_id := None; user_arn := None;
     tenant_id := Some "t1"; multi_tenant_app_name := None; consent_url := Some "https://c";
     service_account := None; catalog_name := Some "c1"; properties := ∅ |}.

(** A CREATE for GCS that passes [validate]. *)
Definition create_gcs_valid : CatalogsCommand :=
  {| catalogs_subcommand := Some "create"; catalog_type := Some "internal";
     remote_url := None; default_base_location := Some "gs://b/p";
     storage_type := Some "gcs"; allowed_locations := Some ["gs://b/p"];
     role_arn := None; external_id := None; user_arn := None;
     tenant_id := None; multi_tenant_app_name := Some ""; consent_url := None;
     service_account := Some "sa@p.iam"; catalog_name := Some "c1"; properties := ∅ |}.

(** A second catalog of the service. *)
Definition c2 : Catalog :=
  {| cat_type := "EXTERNAL"; cat_name := "c2";
     cat_properties := ∅; cat_entity_version := 1 |}.

(** A service that lists two catalogs and refuses every change. *)
Definition read_only : PolarisDefaultApi :=
  {| create_catalog := fun _ => Err (ApiException "Forbidden");
     delete_catalog := fun _ => Err (ApiException "Forbidden");
     get_catalog := fun name =>
       if Py.eq name "c1" then Ok Sample.c1 else Err (ApiException "Not Found");
     list_catalogs := Ok [Sample.c1; c2];
     update_catalog := fun _ _ => Err (ApiException "Forbidden") |}.

(** A service that answers every call, with [c1] for every name. *)
Definition willing : PolarisDefaultApi :=
  {| create_catalog := fun _ => Ok tt;
     delete_catalog := fun _ => Ok tt;
     get_catalog := fun _ => Ok Sample.c1;
     list_catalogs := Ok [];
     update_catalog := fun _ _ => Ok tt |}.

End Case.

(** * Properties *)

(** ** Python values *)

Lemma eq_true (x : Py.str) (c : string) : Py.eq x c = true ↔ x = Some c.
Proof.
  destruct x as [s|]; simpl.
  - rewrite String.eqb_eq. split; congruence.
  - split; discriminate.
Qed.

Lemma eq_Some (s c : string) : Py.eq (Some s) c = String.eqb s c.
Proof. reflexivity. Qed.

Lemma truthy_or (x y : Py.str) : Py.truthy (Py.or x y) = Py.truthy x || Py.truthy y.
Proof. unfold Py.or. destruct (Py.truthy x) eqn:Hx; simpl; [exact Hx | reflexivity]. Qed.

Lemma truthy_Some (x : Py.str) : Py.truthy x = true → ∃ s, x = Some s ∧ s ≠ "".
Proof.
  destruct x as [s|]; simpl; [|discriminate].
  intros H. exists s. split; [reflexivity|].
  intros ->. discriminate.
Qed.

Lemma truthy_None (x : Py.str) : x = None → Py.truthy x = false.
Proof. intros ->. reflexivity. Qed.

(** ** The storage families *)

Lemma has_aws_truthy (self : CatalogsCommand) :
  Py.truthy (_has_aws_storage_info self)
  = Py.truthy (role_arn self) || Py.truthy (external_id self) || Py.truthy (user_arn self).
Proof. unfold _has_aws_storage_info. by rewrite !truthy_or. Qed.

Lemma has_azure_truthy (self : CatalogsCommand) :
  Py.truthy (_has_azure_storage_info self)
  = Py.truthy (tenant_id self) || Py.truthy (multi_tenant_app_name self)
    || Py.truthy (consent_url self).
Proof. unfold _has_azure_storage_info. by rewrite !truthy_or. Qed.

Lemma has_gcs_truthy (self : CatalogsCommand) :
  Py.truthy (_has_gcs_storage_info self) = Py.truthy (service_account self).
Proof. reflexivity. Qed.

(** ** [validate] *)

Lemma validate_steps (self : CatalogsCommand) :
  validate self =
    match validate_create self with
    | Err e => Err e
    | Ok _ =>
        match validate_update self with
        | Err e => Err e
        | Ok _ => validate_storage self
        end
    end.
Proof. unfold validate. destruct (validate_create self), (validate_update self); reflexivity. Qed.

(** Whatever the earlier rules say, a failing cross-check makes [validate]
    fail: either an earlier rule raised, or the cross-check does. *)
Lemma validate_storage_Err (self : CatalogsCommand) (e : exn) :
  validate_storage self = Err e → is_Err (validate self).
Proof.
  intros H. rewrite validate_steps.
  destruct (validate_create self) as [[]|e1]; [|by exists e1].
  destruct (validate_update self) as [[]|e2]; [|by exists e2].
  by exists e.
Qed.

Lemma validate_update_truthy (self : CatalogsCommand) :
  Py.truthy (storage_type self) = true → validate_update self = Ok tt.
Proof.
  intros H. unfold validate_update. rewrite H.
  destruct (Py.eq _ _); [|reflexivity].
  destruct (Py.truthy_list _); reflexivity.
Qed.

Lemma validate_update_other (self : CatalogsCommand) :
  Py.eq (catalogs_subcommand self) Subcommands.UPDATE = false → validate_update self = Ok tt.
Proof. intros H. unfold validate_update. by rewrite H. Qed.

Lemma validate_create_other (self : CatalogsCommand) :
  Py.eq (catalogs_subcommand self) Subcommands.CREATE = false → validate_create self = Ok tt.
Proof. intros H. unfold validate_create. by rewrite H. Qed.

(** Once rules 1 and 2 have passed, [validate] is the cross-check. *)
Lemma validate_after_rules (self : CatalogsCommand) :
  validate_create self = Ok tt → validate_update self = Ok tt →
  validate self = validate_storage self.
Proof. intros H1 H2. by rewrite validate_steps, H1, H2. Qed.

(** The cross-check, by the storage type. *)
Lemma validate_storage_s3 (self : CatalogsCommand) :
  storage_type self = Some StorageType.S3 →
  validate_storage self =
    if negb (Py.truthy (role_arn self)) then Err s3_needs_role_arn
    else if Py.truthy (tenant_id self) || Py.truthy (multi_tenant_app_name self)
            || Py.truthy (consent_url self) || Py.truthy (service_account self)
         then Err s3_supports
         else Ok tt.
Proof.
  intros H. unfold validate_storage. rewrite H, has_azure_truthy, has_gcs_truthy.
  reflexivity.
Qed.

Lemma validate_storage_azure (self : CatalogsCommand) :
  storage_type self = Some StorageType.AZURE →
  validate_storage self =
    if negb (Py.truthy (tenant_id self)) then Err azure_needs_tenant_id
    else if Py.truthy (role_arn self) || Py.truthy (external_id self)
            || Py.truthy (user_arn self) || Py.truthy (service_account self)
         then Err azure_supports
         else Ok tt.
Proof.
  intros H. unfold validate_storage. rewrite H, has_aws_truthy, has_gcs_truthy.
  reflexivity.
Qed.

Lemma validate_storage_otherwise (self : CatalogsCommand) :
  Py.eq (storage_type self) StorageType.S3 = false →
  Py.eq (storage_type self) StorageType.AZURE = false →
  validate_storage self =
    if Py.truthy (role_arn self) || Py.truthy (external_id self) || Py.truthy (user_arn self)
       || (Py.truthy (tenant_id self) || Py.truthy (multi_tenant_app_name self)
           || Py.truthy (consent_url self))
    then Err gcs_supports
    else Ok tt.
Proof.
  intros H1 H2. unfold validate_storage. rewrite H1, H2, has_aws_truthy, has_azure_truthy.
  reflexivity.
Qed.

(** Rule 1 on a CREATE, case by case. *)
Lemma validate_create_cases (self : CatalogsCommand) :
  catalogs_subcommand self = Some Subcommands.CREATE →
  validate_create self =
    if negb (Py.truthy (storage_type self)) then Err missing_storage_type
    else if negb (Py.truthy (default_base_location self)) then Err missing_default_base_location
    else if Py.eq (catalog_type self) CatalogType.EXTERNAL
            && negb (Py.truthy (remote_url self))
         then Err missing_remote_url
         else Ok tt.
Proof.
  intros H. unfold validate_create. rewrite H. simpl.
  destruct (Py.truthy (storage_type self)); [|reflexivity].
  destruct (Py.truthy (default_base_location self)); [|reflexivity].
  destruct (Py.eq (catalog_type self) _); [|reflexivity].
  destruct (Py.truthy (remote_url self)); reflexivity.
Qed.

Lemma validate_create_Err (self : CatalogsCommand) (e : exn) :
  validate_create self = Err e → validate self = Err e.
Proof. intros H. by rewrite validate_steps, H. Qed.

(** C3: on a CREATE, [validate] raises when [storage_type] is missing, when
    [default_base_location] is missing, and when the catalog type is
    EXTERNAL and [remote_url] is missing (the first of these that applies
    gives the message); when the storage type and the base location are
    there, and the remote URL too for an EXTERNAL catalog, rule 1 raises
    nothing and [validate] goes on to the storage cross-checks. *)
Theorem validate_create_required (self : CatalogsCommand) :
  catalogs_subcommand self = Some Subcommands.CREATE →
  (Py.truthy (storage_type self) = false ∨ Py.truthy (default_base_location self) = false →
     is_Err (validate self))
  ∧ (Py.truthy (storage_type self) = false →
     validate self = Err missing_storage_type)
  ∧ (Py.truthy (storage_type self) = true →
     Py.truthy (default_base_location self) = false →
     validate self = Err missing_default_base_location)
  ∧ (catalog_type self = Some CatalogType.EXTERNAL →
     Py.truthy (remote_url self) = false →
     is_Err (validate self))
  ∧ (Py.truthy (storage_type self) = true →
     Py.truthy (default_base_location self) = true →
     catalog_type self = Some CatalogType.EXTERNAL →
     Py.truthy (remote_url self) = false →
     validate self = Err missing_remote_url)
  ∧ (Py.truthy (storage_type self) = true →
     Py.truthy (default_base_location self) = true →
     (catalog_type self = Some CatalogType.EXTERNAL → Py.truthy (remote_url self) = true) →
     validate_create self = Ok tt ∧ validate self = validate_storage self).
Proof.
  intros Hsub. pose proof (validate_create_cases self Hsub) as Hc.
  assert (Hst : Py.truthy (storage_type self) = false →
                validate self = Err missing_storage_type).
  { intros H. apply validate_create_Err. by rewrite Hc, H. }
  assert (Hdbl : Py.truthy (storage_type self) = true →
                 Py.truthy (default_base_location self) = false →
                 validate self = Err missing_default_base_location).
  { intros H1 H2. apply validate_create_Err. by rewrite Hc, H1, H2. }
  assert (Hurl : Py.truthy (storage_type self) = true →
                 Py.truthy (default_base_location self) = true →
                 catalog_type self = Some CatalogType.EXTERNAL →
                 Py.truthy (remote_url self) = false →
                 validate self = Err missing_remote_url).
  { intros H1 H2 H3 H4. apply validate_create_Err.
    rewrite Hc, H1, H2, H4. apply eq_true in H3. by rewrite H3. }
  repeat split; try assumption.
  - intros [H|H].
    + eexists. by apply Hst.
    + destruct (Py.truthy (storage_type self)) eqn:E; eexists; eauto.
  - intros H3 H4.
    destruct (Py.truthy (storage_type self)) eqn:E1; [|eexists; eauto].
    destruct (Py.truthy (default_base_location self)) eqn:E2; eexists; eauto.
  - rewrite Hc, H, H0. simpl.
    destruct (Py.eq (catalog_type self) CatalogType.EXTERNAL) eqn:E; [|reflexivity].
    apply eq_true in E. by rewrite (H1 E).
  - apply validate_after_rules.
    + rewrite Hc, H, H0. simpl.
      destruct (Py.eq (catalog_type self) CatalogType.EXTERNAL) eqn:E; [|reflexivity].
      apply eq_true in E. by rewrite (H1 E).
    + by apply validate_update_truthy.
Qed.

(** C3 on the sample CREATE of an external S3 catalog: nothing is missing,
    rule 1 passes and so do the cross-checks. *)
Lemma validate_create_required_witness :
  catalogs_subcommand Sample.create_s3_external = Some Subcommands.CREATE
  ∧ validate_create Sample.create_s3_external = Ok tt
  ∧ validate Sample.create_s3_external = Ok tt.
Proof.
  split; [reflexivity|].
  destruct (validate_create_required Sample.create_s3_external eq_refl)
    as (_ & _ & _ & _ & _ & H).
  destruct H as [H1 H2]; [reflexivity | reflexivity | reflexivity |].
  split; [exact H1 | rewrite H2; reflexivity].
Defined.

(** C4: with the storage type S3, [validate] raises when [role_arn] is
    absent, and, with [role_arn] given, when a field of Azure or of GCS is
    set; of the two cross-checks the missing role is the one reported, also
    when both apply, and it is what [validate] reports once rule 1 passed. *)
Theorem validate_s3 (self : CatalogsCommand) :
  storage_type self = Some StorageType.S3 →
  (Py.truthy (role_arn self) = false →
     is_Err (validate self)
     ∧ validate_storage self = Err s3_needs_role_arn
     ∧ (validate_create self = Ok tt → validate self = Err s3_needs_role_arn))
  ∧ (Py.truthy (role_arn self) = true →
     Py.truthy (tenant_id self) = true ∨ Py.truthy (multi_tenant_app_name self) = true
     ∨ Py.truthy (consent_url self) = true ∨ Py.truthy (service_account self) = true →
     is_Err (validate self)
     ∧ validate_storage self = Err s3_supports
     ∧ (validate_create self = Ok tt → validate self = Err s3_supports)).
Proof.
  intros Hst. pose proof (validate_storage_s3 self Hst) as Hs.
  assert (Hup : validate_update self = Ok tt).
  { apply validate_update_truthy. by rewrite Hst. }
  split.
  - intros Hrole. rewrite Hrole in Hs. simpl in Hs.
    split; [by eapply validate_storage_Err|].
    split; [exact Hs|].
    intros Hc. by rewrite validate_after_rules.
  - intros Hrole Hother. rewrite Hrole in Hs. simpl in Hs.
    replace (Py.truthy (tenant_id self) || Py.truthy (multi_tenant_app_name self)
             || Py.truthy (consent_url self) || Py.truthy (service_account self))
      with true in Hs
      by (symmetry; destruct Hother as [-> | [-> | [-> | ->]]];
          rewrite ?orb_true_r; reflexivity).
    split; [by eapply validate_storage_Err|].
    split; [exact Hs|].
    intros Hc. by rewrite validate_after_rules.
Qed.

(** C4 on the sample CREATE for S3 that has a tenant and no role: both
    cross-checks apply and the missing role is reported. *)
Lemma validate_s3_witness :
  storage_type Sample.create_s3_tenant = Some StorageType.S3
  ∧ Py.truthy (role_arn Sample.create_s3_tenant) = false
  ∧ Py.truthy (tenant_id Sample.create_s3_tenant) = true
  ∧ validate Sample.create_s3_tenant = Err s3_needs_role_arn.
Proof.
  split; [reflexivity|]. split; [reflexivity|]. split; [reflexivity|].
  destruct (validate_s3 Sample.create_s3_tenant eq_refl) as [H _].
  destruct (H eq_refl) as (_ & _ & Hv).
  apply Hv. reflexivity.
Defined.

(** C5: with the storage type AZURE, [validate] raises when [tenant_id] is
    absent, and, with [tenant_id] given, when a field of AWS or of GCS is
    set; of the two cross-checks the missing tenant is the one reported, also
    when both apply, and it is what [validate] reports once rule 1 passed. *)
Theorem validate_azure (self : CatalogsCommand) :
  storage_type self = Some StorageType.AZURE →
  (Py.truthy (tenant_id self) = false →
     is_Err (validate self)
     ∧ validate_storage self = Err azure_needs_tenant_id
     ∧ (validate_create self = Ok tt → validate self = Err azure_needs_tenant_id))
  ∧ (Py.truthy (tenant_id self) = true →
     Py.truthy (role_arn self) = true ∨ Py.truthy (external_id self) = true
     ∨ Py.truthy (user_arn self) = true ∨ Py.truthy (service_account self) = true →
     is_Err (validate self)
     ∧ validate_storage self = Err azure_supports
     ∧ (validate_create self = Ok tt → validate self = Err azure_supports)).
Proof.
  intros Hst. pose proof (validate_storage_azure self Hst) as Hs.
  assert (Hup : validate_update self = Ok tt).
  { apply validate_update_truthy. by rewrite Hst. }
  split.
  - intros Hten. rewrite Hten in Hs. simpl in Hs.
    split; [by eapply validate_storage_Err|].
    split; [exact Hs|].
    intros Hc. by rewrite validate_after_rules.
  - intros Hten Hother. rewrite Hten in Hs. simpl in Hs.
    replace (Py.truthy (role_arn self) || Py.truthy (external_id self)
             || Py.truthy (user_arn self) || Py.truthy (service_account self))
      with true in Hs
      by (symmetry; destruct Hother as [-> | [-> | [-> | ->]]];
          rewrite ?orb_true_r; reflexivity).
    split; [by eapply validate_storage_Err|].
    split; [exact Hs|].
    intros Hc. by rewrite validate_after_rules.
Qed.

(** C5 on the sample CREATE for Azure that has a role and no tenant. *)
Lemma validate_azure_witness :
  storage_type Sample.create_azure_role = Some StorageType.AZURE
  ∧ Py.truthy (tenant_id Sample.create_azure_role) = false
  ∧ Py.truthy (role_arn Sample.create_azure_role) = true
  ∧ validate Sample.create_azure_role = Err azure_needs_tenant_id.
Proof.
  split; [reflexivity|]. split; [reflexivity|]. split; [reflexivity|].
  destruct (validate_azure Sample.create_azure_role eq_refl) as [H _].
  destruct (H eq_refl) as (_ & _ & Hv).
  apply Hv. reflexivity.
Defined.

(** C2, as stated, fails: [polaris catalogs get c1 --role-arn r] has no
    storage type and no service account, and [validate] raises the
    cross-check error of the last branch all the same. *)
Lemma validate_otherwise_counterexample :
  storage_type Sample.get_role_arn = None
  ∧ service_account Sample.get_role_arn = None
  ∧ validate_create Sample.get_role_arn = Ok tt
  ∧ validate_update Sample.get_role_arn = Ok tt
  ∧ validate_storage Sample.get_role_arn = Err gcs_supports
  ∧ validate Sample.get_role_arn = Err gcs_supports.
Proof. repeat split; reflexivity. Qed.

(** C2, amended: the storage cross-checks do not look at the subcommand
    ([validate] is the cross-check as soon as rules 1 and 2 have passed, and
    for every subcommand other than CREATE and UPDATE); the last branch,
    which raises if a field of AWS or of Azure is set, is the one taken
    whenever the storage type is neither S3 nor AZURE, whatever
    [service_account] is, and its error arises in no other case; so with the
    storage type and the service account both unset, [validate] raises the
    cross-check error exactly when a field of AWS or of Azure is set. *)
Theorem validate_otherwise (self : CatalogsCommand) :
  let aws_or_azure :=
    Py.truthy (role_arn self) || Py.truthy (external_id self) || Py.truthy (user_arn self)
    || (Py.truthy (tenant_id self) || Py.truthy (multi_tenant_app_name self)
        || Py.truthy (consent_url self)) in
  (validate_create self = Ok tt → validate_update self = Ok tt →
     validate self = validate_storage self)
  ∧ (Py.eq (catalogs_subcommand self) Subcommands.CREATE = false →
     Py.eq (catalogs_subcommand self) Subcommands.UPDATE = false →
     validate self = validate_storage self)
  ∧ (storage_type self ≠ Some StorageType.S3 →
     storage_type self ≠ Some StorageType.AZURE →
     validate_storage self = if aws_or_azure then Err gcs_supports else Ok tt)
  ∧ (validate_storage self = Err gcs_supports →
     storage_type self ≠ Some StorageType.S3
     ∧ storage_type self ≠ Some StorageType.AZURE
     ∧ aws_or_azure = true)
  ∧ (storage_type self = None → service_account self = None →
     validate_create self = Ok tt → validate_update self = Ok tt →
     (validate self = Err gcs_supports ↔ aws_or_azure = true)
     ∧ (validate self = Ok tt ↔ aws_or_azure = false)).
Proof.
  intros aws_or_azure.
  assert (Hother : storage_type self ≠ Some StorageType.S3 →
                   storage_type self ≠ Some StorageType.AZURE →
                   validate_storage self = if aws_or_azure then Err gcs_supports else Ok tt).
  { intros H1 H2. apply validate_storage_otherwise.
    - destruct (Py.eq _ _) eqn:E; [|reflexivity]. by apply eq_true in E.
    - destruct (Py.eq _ _) eqn:E; [|reflexivity]. by apply eq_true in E. }
  split; [apply validate_after_rules|].
  split.
  { intros H1 H2. apply validate_after_rules.
    - by apply validate_create_other.
    - by apply validate_update_other. }
  split; [exact Hother|].
  split.
  - intros Herr.
    destruct (decide (storage_type self = Some StorageType.S3)) as [E|E].
    { rewrite (validate_storage_s3 self E) in Herr.
      destruct (Py.truthy (role_arn self)); simpl in Herr; [|discriminate].
      destruct (_ || _) in Herr; discriminate. }
    destruct (decide (storage_type self = Some StorageType.AZURE)) as [E'|E'].
    { rewrite (validate_storage_azure self E') in Herr.
      destruct (Py.truthy (tenant_id self)); simpl in Herr; [|discriminate].
      destruct (_ || _) in Herr; discriminate. }
    repeat split; try assumption.
    rewrite (Hother E E') in Herr. by destruct aws_or_azure.
  - intros Hst _ Hc Hu. rewrite (validate_after_rules self Hc Hu).
    rewrite Hother by (rewrite Hst; discriminate).
    destruct aws_or_azure; split; split; congruence.
Qed.

(** C2, amended, on [polaris catalogs get c1 --role-arn r]. *)
Lemma validate_otherwise_witness :
  storage_type Sample.get_role_arn = None
  ∧ service_account Sample.get_role_arn = None
  ∧ validate Sample.get_role_arn = Err gcs_supports.
Proof.
  split; [reflexivity|]. split; [reflexivity|].
  destruct (validate_otherwise Sample.get_role_arn) as (_ & _ & _ & _ & H).
  destruct (H eq_refl eq_refl eq_refl eq_refl) as [[_ Hv] _].
  apply Hv. reflexivity.
Defined.

(** ** [_build_storage_config_info] *)

Lemma build_cases (self : CatalogsCommand) :
  _build_storage_config_info self =
    if Py.eq (storage_type self) StorageType.S3 then
      Some (AwsStorageConfigInfo "S3" (allowed_locations self)
              (role_arn self) (external_id self) (user_arn self))
    else if Py.eq (storage_type self) StorageType.AZURE then
      Some (AzureStorageConfigInfo "AZURE" (allowed_locations self)
              (tenant_id self) (multi_tenant_app_name self) (consent_url self))
    else if Py.eq (storage_type self) StorageType.GCS then
      Some (GcpStorageConfigInfo "GCS" (allowed_locations self)
              (tenant_id self) (multi_tenant_app_name self))
    else None.
Proof.
  unfold _build_storage_config_info.
  destruct (storage_type self) as [st|]; [|reflexivity]. rewrite !eq_Some.
  destruct (String.eqb st StorageType.S3) eqn:E1.
  { apply String.eqb_eq in E1. by subst st. }
  destruct (String.eqb st StorageType.AZURE) eqn:E2.
  { apply String.eqb_eq in E2. by subst st. }
  destruct (String.eqb st StorageType.GCS) eqn:E3; [|reflexivity].
  apply String.eqb_eq in E3. by subst st.
Qed.

Lemma eq_false (x : Py.str) (c : string) : x ≠ Some c → Py.eq x c = false.
Proof. intros H. destruct (Py.eq x c) eqn:E; [|reflexivity]. by apply eq_true in E. Qed.

(** C7: with the storage type GCS the builder returns a
    [GcpStorageConfigInfo] of type ["GCS"] with the allowed locations of the
    command, filled from [tenant_id] and [multi_tenant_app_name]; the service
    account is no part of it: commands that differ in it build the same
    configuration. *)
Theorem build_gcs (self : CatalogsCommand) :
  storage_type self = Some StorageType.GCS →
  _build_storage_config_info self
  = Some (GcpStorageConfigInfo "GCS" (allowed_locations self)
            (tenant_id self) (multi_tenant_app_name self))
  ∧ (∀ c, _build_storage_config_info self = Some c →
       config_type c = "GCS" ∧ config_allowed_locations c = allowed_locations self)
  ∧ (∀ other : CatalogsCommand,
       storage_type other = Some StorageType.GCS →
       allowed_locations other = allowed_locations self →
       tenant_id other = tenant_id self →
       multi_tenant_app_name other = multi_tenant_app_name self →
       _build_storage_config_info other = _build_storage_config_info self).
Proof.
  intros Hst.
  assert (Hb : ∀ c : CatalogsCommand, storage_type c = Some StorageType.GCS →
               _build_storage_config_info c
               = Some (GcpStorageConfigInfo "GCS" (allowed_locations c)
                         (tenant_id c) (multi_tenant_app_name c))).
  { intros c Hc. rewrite build_cases, Hc. reflexivity. }
  split; [by apply Hb|]. split.
  - intros c. rewrite (Hb self Hst). intros [= <-]. split; reflexivity.
  - intros other Ho Hal Hten Happ. rewrite (Hb self Hst), (Hb other Ho).
    by rewrite Hal, Hten, Happ.
Qed.

(** C7 on the sample CREATE for GCS, which has a service account. *)
Lemma build_gcs_witness :
  storage_type Sample.create_gcs = Some StorageType.GCS
  ∧ service_account Sample.create_gcs = Some "sa@p.iam"
  ∧ _build_storage_config_info Sample.create_gcs
    = Some (GcpStorageConfigInfo "GCS" (Some ["gs://b/p"; "gs://b/q"]) (Some "t1") (Some "app")).
Proof.
  split; [reflexivity|]. split; [reflexivity|].
  destruct (build_gcs Sample.create_gcs eq_refl) as [H _]. exact H.
Defined.

(** C8: the configuration built is a function of the storage type, the
    allowed locations and the storage fields alone, so that commands equal
    on these (equal commands among them) build identical configurations; and
    it is [None] when the storage type is none of S3, AZURE and GCS, unset
    included, and only then. *)
Theorem build_pure (self other : CatalogsCommand) :
  (self = other → _build_storage_config_info self = _build_storage_config_info other)
  ∧ (storage_type self = storage_type other →
     allowed_locations self = allowed_locations other →
     role_arn self = role_arn other →
     external_id self = external_id other →
     user_arn self = user_arn other →
     tenant_id self = tenant_id other →
     multi_tenant_app_name self = multi_tenant_app_name other →
     consent_url self = consent_url other →
     _build_storage_config_info self = _build_storage_config_info other)
  ∧ (storage_type self ≠ Some StorageType.S3 →
     storage_type self ≠ Some StorageType.AZURE →
     storage_type self ≠ Some StorageType.GCS →
     _build_storage_config_info self = None)
  ∧ (storage_type self = None → _build_storage_config_info self = None)
  ∧ (_build_storage_config_info self = None →
     storage_type self ≠ Some StorageType.S3
     ∧ storage_type self ≠ Some StorageType.AZURE
     ∧ storage_type self ≠ Some StorageType.GCS).
Proof.
  split; [by intros ->|]. split.
  { intros H1 H2 H3 H4 H5 H6 H7 H8. rewrite !build_cases.
    by rewrite H1, H2, H3, H4, H5, H6, H7, H8. }
  split.
  { intros H1 H2 H3. rewrite build_cases.
    by rewrite (eq_false _ _ H1), (eq_false _ _ H2), (eq_false _ _ H3). }
  split.
  { intros H. unfold _build_storage_config_info. by rewrite H. }
  intros H. rewrite build_cases in H.
  repeat split; intros E; rewrite E in H; discriminate.
Qed.

(** C8 on [polaris catalogs get c1 --role-arn r], which has no storage
    type. *)
Lemma build_pure_witness :
  storage_type Sample.get_role_arn = None
  ∧ _build_storage_config_info Sample.get_role_arn = None.
Proof.
  split; [reflexivity|].
  destruct (build_pure Sample.get_role_arn Sample.get_role_arn) as (_ & _ & H & _).
  apply H; discriminate.
Defined.

(** ** [execute]: UPDATE *)

(** An UPDATE asks for the catalog first and stops there when that fails. *)
Lemma execute_update (self : CatalogsCommand) (api : PolarisDefaultApi) :
  catalogs_subcommand self = Some Subcommands.UPDATE →
  execute self api =
    match get_catalog api (catalog_name self) with
    | Ok fetched =>
        ([GetCatalog (catalog_name self);
          UpdateCatalog (catalog_name self) (update_request self fetched)],
         update_catalog api (catalog_name self) (update_request self fetched))
    | Err e => ([GetCatalog (catalog_name self)], Err e)
    end.
Proof.
  intros H. unfold execute. rewrite H. simpl.
  destruct (get_catalog api (catalog_name self)); reflexivity.
Qed.

Lemma update_request_properties (self : CatalogsCommand) (fetched : Catalog) :
  cat_properties (ucr_catalog (update_request self fetched))
  = properties self ∪ default_base_location_properties self.
Proof. unfold update_request. by destruct (has_storage_option self). Qed.

Lemma update_request_version (self : CatalogsCommand) (fetched : Catalog) :
  ucr_current_entity_version (update_request self fetched) = cat_entity_version fetched.
Proof. unfold update_request. by destruct (has_storage_option self). Qed.

Lemma update_request_config (self : CatalogsCommand) (fetched : Catalog) :
  ucr_storage_config_info (update_request self fetched)
  = if has_storage_option self then _build_storage_config_info self else None.
Proof. unfold update_request. by destruct (has_storage_option self). Qed.

(** The base-location map has at most the one key, bound to the location
    when that is a non-empty string. *)
Lemma base_location_lookup (self : CatalogsCommand) (k : string) :
  default_base_location_properties self !! k
  = if decide (k = "default-base-location")
    then if Py.truthy (default_base_location self) then default_base_location self else None
    else None.
Proof.
  unfold default_base_location_properties.
  destruct (default_base_location self) as [loc|].
  - destruct (Py.truthy (Some loc)).
    + case_decide as E.
      * subst k. apply lookup_singleton_eq.
      * by apply lookup_singleton_ne.
    + rewrite lookup_empty. by case_decide.
  - rewrite lookup_empty. by case_decide.
Qed.

(** The properties sent, key by key: the option's binding if there is one,
    otherwise the base location under its key, otherwise nothing. *)
Lemma sent_properties_lookup (self : CatalogsCommand) (fetched : Catalog) (k : string) :
  cat_properties (ucr_catalog (update_request self fetched)) !! k
  = match properties self !! k with
    | Some v => Some v
    | None =>
        if decide (k = "default-base-location")
        then if Py.truthy (default_base_location self) then default_base_location self else None
        else None
    end.
Proof.
  rewrite update_request_properties, lookup_union, base_location_lookup.
  destruct (properties self !! k) as [v|]; simpl.
  - by rewrite union_Some_l.
  - by rewrite (left_id None _).
Qed.

(** C1: an UPDATE first asks [get_catalog] for the catalog of the given name;
    when that answers, the one further call is [update_catalog], and the
    properties of the catalog it sends are the base location under
    [default-base-location] (when one is given) overlaid with the properties
    of the options, the options winning; with base location [loc] and
    properties [{default-base-location: loc2, b: 2}] they are exactly
    [{default-base-location: loc2, b: 2}]. *)
Theorem update_properties_merge (self : CatalogsCommand) (api : PolarisDefaultApi) :
  catalogs_subcommand self = Some Subcommands.UPDATE →
  (∃ rest, (execute self api).1 = GetCatalog (catalog_name self) :: rest)
  ∧ ∀ fetched : Catalog,
      get_catalog api (catalog_name self) = Ok fetched →
      ∃ request : UpdateCatalogRequest,
        execute self api
        = ([GetCatalog (catalog_name self); UpdateCatalog (catalog_name self) request],
           update_catalog api (catalog_name self) request)
        ∧ (∀ k v, properties self !! k = Some v →
             cat_properties (ucr_catalog request) !! k = Some v)
        ∧ (∀ loc, default_base_location self = Some loc → loc ≠ "" →
             properties self !! "default-base-location" = None →
             cat_properties (ucr_catalog request) !! "default-base-location" = Some loc)
        ∧ (∀ k, properties self !! k = None →
             k ≠ "default-base-location" ∨ Py.truthy (default_base_location self) = false →
             cat_properties (ucr_catalog request) !! k = None)
        ∧ (default_base_location self = Some "loc" →
           properties self = {[ "default-base-location" := "loc2"; "b" := "2" ]} →
           cat_properties (ucr_catalog request)
           = {[ "default-base-location" := "loc2"; "b" := "2" ]}).
Proof.
  intros Hsub. rewrite (execute_update self api Hsub). split.
  { destruct (get_catalog api (catalog_name self)); eexists; reflexivity. }
  intros fetched Hget. rewrite Hget.
  exists (update_request self fetched).
  split; [reflexivity|]. split; [|split; [|split]].
  - intros k v Hk. by rewrite sent_properties_lookup, Hk.
  - intros loc Hloc Hne Hk. rewrite sent_properties_lookup, Hk, Hloc.
    rewrite decide_True by reflexivity. simpl.
    destruct (String.eqb loc "") eqn:E; [|reflexivity].
    apply String.eqb_eq in E. contradiction.
  - intros k Hk Hor. rewrite sent_properties_lookup, Hk.
    case_decide as E; [|reflexivity].
    destruct Hor as [Hor|Hor]; [contradiction|]. by rewrite Hor.
  - intros Hloc Hprops. rewrite update_request_properties.
    unfold default_base_location_properties. rewrite Hloc, Hprops.
    vm_compute. reflexivity.
Qed.

(** C1 on the sample UPDATE, whose catalog holds [{a: 1}] at the service. *)
Lemma update_properties_merge_witness :
  catalogs_subcommand Sample.update_merge = Some Subcommands.UPDATE
  ∧ get_catalog Sample.service (catalog_name Sample.update_merge) = Ok Sample.c1
  ∧ ∃ request : UpdateCatalogRequest,
      (execute Sample.update_merge Sample.service).1
      = [GetCatalog (Some "c1"); UpdateCatalog (Some "c1") request]
      ∧ cat_properties (ucr_catalog request)
        = {[ "default-base-location" := "loc2"; "b" := "2" ]}.
Proof.
  split; [reflexivity|]. split; [reflexivity|].
  destruct (update_properties_merge Sample.update_merge Sample.service eq_refl) as [_ H].
  destruct (H Sample.c1 eq_refl) as (request & Hrun & _ & _ & _ & Hex).
  exists request. split.
  - rewrite Hrun. reflexivity.
  - apply Hex; reflexivity.
Defined.

(** C9: the properties of the catalog an UPDATE sends have keys of the
    options only, the keys of [properties] and [default-base-location] when
    a base location is given; a property of the fetched catalog that the
    options do not supply again is gone, and the map sent is the same
    whatever the fetched catalog held. *)
Theorem update_properties_replaced
    (self : CatalogsCommand) (api : PolarisDefaultApi) (fetched : Catalog) :
  catalogs_subcommand self = Some Subcommands.UPDATE →
  get_catalog api (catalog_name self) = Ok fetched →
  ∃ request : UpdateCatalogRequest,
    (execute self api).1
    = [GetCatalog (catalog_name self); UpdateCatalog (catalog_name self) request]
    ∧ (∀ k, is_Some (cat_properties (ucr_catalog request) !! k) →
         is_Some (properties self !! k)
         ∨ (k = "default-base-location" ∧ Py.truthy (default_base_location self) = true))
    ∧ (∀ k v, cat_properties fetched !! k = Some v →
         properties self !! k = None →
         k ≠ "default-base-location" ∨ Py.truthy (default_base_location self) = false →
         cat_properties (ucr_catalog request) !! k = None)
    ∧ (∀ (api' : PolarisDefaultApi) (fetched' : Catalog) (request' : UpdateCatalogRequest),
         get_catalog api' (catalog_name self) = Ok fetched' →
         (execute self api').1
         = [GetCatalog (catalog_name self); UpdateCatalog (catalog_name self) request'] →
         cat_properties (ucr_catalog request') = cat_properties (ucr_catalog request)).
Proof.
  intros Hsub Hget. rewrite (execute_update self api Hsub), Hget.
  exists (update_request self fetched).
  split; [reflexivity|]. split; [|split].
  - intros k. rewrite sent_properties_lookup.
    destruct (properties self !! k) as [v|]; [left; by exists v|].
    case_decide as E; [|by intros [? ?]].
    destruct (Py.truthy (default_base_location self)); [by right|by intros [? ?]].
  - intros k v _ Hk Hor. rewrite sent_properties_lookup, Hk.
    case_decide as E; [|reflexivity].
    destruct Hor as [Hor|Hor]; [contradiction|]. by rewrite Hor.
  - intros api' fetched' request' Hget'.
    rewrite (execute_update self api' Hsub), Hget'. simpl.
    intros [= <-]. by rewrite !update_request_properties.
Qed.

(** C9 on the sample UPDATE: the property [a] of the fetched catalog is not
    among the properties sent. *)
Lemma update_properties_replaced_witness :
  catalogs_subcommand Sample.update_merge = Some Subcommands.UPDATE
  ∧ get_catalog Sample.service (catalog_name Sample.update_merge) = Ok Sample.c1
  ∧ cat_properties Sample.c1 !! "a" = Some "1"
  ∧ ∃ request : UpdateCatalogRequest,
      (execute Sample.update_merge Sample.service).1
      = [GetCatalog (Some "c1"); UpdateCatalog (Some "c1") request]
      ∧ cat_properties (ucr_catalog request) !! "a" = None.
Proof.
  split; [reflexivity|]. split; [reflexivity|]. split; [reflexivity|].
  destruct (update_properties_replaced Sample.update_merge Sample.service Sample.c1
              eq_refl eq_refl) as (request & Hrun & _ & Hgone & _).
  exists request. split; [exact Hrun|].
  apply (Hgone "a" "1"); [reflexivity | reflexivity | left; discriminate].
Defined.

Lemma has_storage_option_truthy (self : CatalogsCommand) :
  has_storage_option self
  = Py.truthy_list (allowed_locations self)
    || (Py.truthy (role_arn self) || Py.truthy (external_id self) || Py.truthy (user_arn self))
    || (Py.truthy (tenant_id self) || Py.truthy (multi_tenant_app_name self)
        || Py.truthy (consent_url self))
    || Py.truthy (service_account self).
Proof. unfold has_storage_option. by rewrite has_aws_truthy, has_azure_truthy, has_gcs_truthy. Qed.

(** C6, as stated, fails: [polaris catalogs update c1 --service-account
    sa@p.iam] passes [validate] and gives a storage field, and the request
    sent has no storage configuration, the builder returning [None] without
    a storage type. *)
Lemma update_storage_config_counterexample :
  catalogs_subcommand Sample.update_service_account = Some Subcommands.UPDATE
  ∧ Py.truthy (service_account Sample.update_service_account) = true
  ∧ validate Sample.update_service_account = Ok tt
  ∧ ∃ request : UpdateCatalogRequest,
      execute Sample.update_service_account Sample.service
      = ([GetCatalog (Some "c1"); UpdateCatalog (Some "c1") request], Ok tt)
      ∧ ucr_storage_config_info request = None.
Proof.
  split; [reflexivity|]. split; [reflexivity|]. split; [reflexivity|].
  eexists. split; reflexivity.
Qed.

(** C6, amended: the request an UPDATE sends has no storage configuration
    when none of the allowed locations and the fields of AWS, Azure and GCS
    is given; when one of them is given it has what
    [_build_storage_config_info] returns for the command, a freshly built
    configuration when the storage type is S3, AZURE or GCS and none
    otherwise; either way its [current_entity_version] is the
    [entity_version] of the catalog fetched. *)
Theorem update_storage_config
    (self : CatalogsCommand) (api : PolarisDefaultApi) (fetched : Catalog) :
  catalogs_subcommand self = Some Subcommands.UPDATE →
  get_catalog api (catalog_name self) = Ok fetched →
  let given :=
    Py.truthy_list (allowed_locations self) = true
    ∨ Py.truthy (role_arn self) = true ∨ Py.truthy (external_id self) = true
    ∨ Py.truthy (user_arn self) = true
    ∨ Py.truthy (tenant_id self) = true ∨ Py.truthy (multi_tenant_app_name self) = true
    ∨ Py.truthy (consent_url self) = true
    ∨ Py.truthy (service_account self) = true in
  ∃ request : UpdateCatalogRequest,
    execute self api
    = ([GetCatalog (catalog_name self); UpdateCatalog (catalog_name self) request],
       update_catalog api (catalog_name self) request)
    ∧ ucr_current_entity_version request = cat_entity_version fetched
    ∧ (Py.truthy_list (allowed_locations self) = false →
       Py.truthy (role_arn self) = false → Py.truthy (external_id self) = false →
       Py.truthy (user_arn self) = false →
       Py.truthy (tenant_id self) = false → Py.truthy (multi_tenant_app_name self) = false →
       Py.truthy (consent_url self) = false →
       Py.truthy (service_account self) = false →
       ucr_storage_config_info request = None)
    ∧ (given → ucr_storage_config_info request = _build_storage_config_info self)
    ∧ (given →
       ∀ st, storage_type self = Some st →
         st = StorageType.S3 ∨ st = StorageType.AZURE ∨ st = StorageType.GCS →
         ∃ config, ucr_storage_config_info request = Some config
                   ∧ config_type config = Py.upper st
                   ∧ config_allowed_locations config = allowed_locations self)
    ∧ (given →
       storage_type self ≠ Some StorageType.S3 → storage_type self ≠ Some StorageType.AZURE →
       storage_type self ≠ Some StorageType.GCS →
       ucr_storage_config_info request = None).
Proof.
  intros Hsub Hget given. rewrite (execute_update self api Hsub), Hget.
  exists (update_request self fetched).
  split; [reflexivity|]. split; [apply update_request_version|].
  rewrite update_request_config, has_storage_option_truthy.
  split; [by intros -> -> -> -> -> -> -> ->|].
  assert (Hgiven : given →
            Py.truthy_list (allowed_locations self)
            || (Py.truthy (role_arn self) || Py.truthy (external_id self)
                || Py.truthy (user_arn self))
            || (Py.truthy (tenant_id self) || Py.truthy (multi_tenant_app_name self)
                || Py.truthy (consent_url self))
            || Py.truthy (service_account self) = true).
  { intros H.
    destruct H as [-> | [-> | [-> | [-> | [-> | [-> | [-> | ->]]]]]]];
      rewrite ?orb_true_r; reflexivity. }
  split; [|split].
  - intros H. by rewrite (Hgiven H).
  - intros H st Hst Hin. rewrite (Hgiven H), build_cases, Hst.
    destruct Hin as [-> | [-> | ->]]; eexists; (split; [reflexivity|]); split; reflexivity.
  - intros H H1 H2 H3. rewrite (Hgiven H), build_cases.
    by rewrite (eq_false _ _ H1), (eq_false _ _ H2), (eq_false _ _ H3).
Qed.

(** C6, amended, on the sample UPDATE that changes the role of an S3
    catalog: the request has the version 7 of the fetched catalog and a
    fresh AWS configuration. *)
Lemma update_storage_config_witness :
  catalogs_subcommand Sample.update_role = Some Subcommands.UPDATE
  ∧ get_catalog Sample.service (catalog_name Sample.update_role) = Ok Sample.c1
  ∧ ∃ request : UpdateCatalogRequest,
      (execute Sample.update_role Sample.service).1
      = [GetCatalog (Some "c1"); UpdateCatalog (Some "c1") request]
      ∧ ucr_current_entity_version request = 7%Z
      ∧ ucr_storage_config_info request
        = Some (AwsStorageConfigInfo "S3" None (Some "arn:aws:iam::1:role/r2") None None).
Proof.
  split; [reflexivity|]. split; [reflexivity|].
  destruct (update_storage_config Sample.update_role Sample.service Sample.c1
              eq_refl eq_refl) as (request & Hrun & Hver & _ & Hcfg & _).
  exists request. split; [by rewrite Hrun|]. split; [exact Hver|].
  rewrite Hcfg; [reflexivity|]. right. left. reflexivity.
Defined.

(** ** [execute]: CREATE *)

Lemma execute_create (self : CatalogsCommand) (api : PolarisDefaultApi) :
  catalogs_subcommand self = Some Subcommands.CREATE →
  execute self api =
    match create_request self with
    | Ok request => ([CreateCatalog request], create_catalog api request)
    | Err e => ([], Err e)
    end.
Proof.
  intros H. unfold execute. rewrite H. simpl.
  destruct (create_request self); reflexivity.
Qed.



(** For a catalog type that is a string of ASCII characters the CREATE
    branch does what C10 says: it builds an [ExternalCatalog], with the
    remote URL, exactly when the string is the value of EXTERNAL, and for
    every other string (that of INTERNAL, the empty one, an unknown one) a
    [PolarisCatalog] with the same name, storage configuration and
    properties and no remote URL; in both the type is the catalog type in
    upper case, and the request is what [create_catalog] is called with. *)
Lemma create_request_shape (self : CatalogsCommand) (ct : string) :
  catalog_type self = Some ct →
  Py.is_ascii ct = true →
  let config := _build_storage_config_info self in
  let props := {| cp_default_base_location := default_base_location self;
                  cp_additional_properties := properties self |} in
  (ct = CatalogType.EXTERNAL →
     create_request self
     = Ok {| ccr_catalog :=
               ExternalCatalog (Py.upper ct) (catalog_name self) config (remote_url self)
                 props |})
  ∧ (ct ≠ CatalogType.EXTERNAL →
     create_request self
     = Ok {| ccr_catalog := PolarisCatalog (Py.upper ct) (catalog_name self) config props |})
  ∧ (∀ api : PolarisDefaultApi,
       catalogs_subcommand self = Some Subcommands.CREATE →
       ∃ request : CreateCatalogRequest,
         create_request self = Ok request
         ∧ execute self api = ([CreateCatalog request], create_catalog api request)).
Proof.
  intros Hct _ config props.
  assert (Hext : ct = CatalogType.EXTERNAL →
                 create_request self
                 = Ok {| ccr_catalog :=
                           ExternalCatalog (Py.upper ct) (catalog_name self) config
                             (remote_url self) props |}).
  { intros ->. unfold create_request. rewrite Hct. reflexivity. }
  assert (Hint : ct ≠ CatalogType.EXTERNAL →
                 create_request self
                 = Ok {| ccr_catalog :=
                           PolarisCatalog (Py.upper ct) (catalog_name self) config props |}).
  { intros Hne. unfold create_request. rewrite Hct, eq_Some.
    destruct (String.eqb ct CatalogType.EXTERNAL) eqn:E; [|reflexivity].
    apply String.eqb_eq in E. contradiction. }
  split; [exact Hext|]. split; [exact Hint|].
  intros api Hsub. rewrite (execute_create self api Hsub).
  destruct (decide (ct = CatalogType.EXTERNAL)) as [E|E].
  - rewrite (Hext E). eexists. split; reflexivity.
  - rewrite (Hint E). eexists. split; reflexivity.
Qed.

(** The sample CREATE of an external S3 catalog, whose type is given. *)
Lemma create_request_shape_witness :
  catalog_type Sample.create_s3_external = Some "external"
  ∧ create_request Sample.create_s3_external
    = Ok {| ccr_catalog :=
              ExternalCatalog "EXTERNAL" (Some "c1")
                (Some (AwsStorageConfigInfo "S3" None (Some "arn:aws:iam::1:role/r") None None))
                (Some "https://x")
                {| cp_default_base_location := Some "s3://b/p";
                   cp_additional_properties := ∅ |} |}.
Proof.
  split; [reflexivity|].
  destruct (create_request_shape Sample.create_s3_external "external" eq_refl eq_refl)
    as [H _].
  apply H. reflexivity.
Defined.

(** * Further properties *)

(** ** What a command that passes [validate] looks like *)

Lemma validate_Ok (self : CatalogsCommand) :
  validate self = Ok tt →
  validate_create self = Ok tt ∧ validate_update self = Ok tt ∧ validate_storage self = Ok tt.
Proof.
  rewrite validate_steps.
  destruct (validate_create self) as [[]|]; [|discriminate].
  destruct (validate_update self) as [[]|]; [|discriminate].
  by intros H.
Qed.

(** The three ways through the cross-check. *)
Lemma validate_storage_Ok (self : CatalogsCommand) :
  validate_storage self = Ok tt →
  (storage_type self = Some StorageType.S3
   ∧ Py.truthy (role_arn self) = true
   ∧ Py.truthy (_has_azure_storage_info self) = false
   ∧ Py.truthy (_has_gcs_storage_info self) = false)
  ∨ (storage_type self = Some StorageType.AZURE
     ∧ Py.truthy (tenant_id self) = true
     ∧ Py.truthy (_has_aws_storage_info self) = false
     ∧ Py.truthy (_has_gcs_storage_info self) = false)
  ∨ (storage_type self ≠ Some StorageType.S3
     ∧ storage_type self ≠ Some StorageType.AZURE
     ∧ Py.truthy (_has_aws_storage_info self) = false
     ∧ Py.truthy (_has_azure_storage_info self) = false).
Proof.
  unfold validate_storage.
  destruct (Py.eq (storage_type self) StorageType.S3) eqn:E1.
  { apply eq_true in E1.
    destruct (Py.truthy (role_arn self)); simpl; [|discriminate].
    destruct (Py.truthy (_has_azure_storage_info self)); simpl; [discriminate|].
    destruct (Py.truthy (_has_gcs_storage_info self)); simpl; [discriminate|].
    intros _. left. done. }
  destruct (Py.eq (storage_type self) StorageType.AZURE) eqn:E2.
  { apply eq_true in E2.
    destruct (Py.truthy (tenant_id self)); simpl; [|discriminate].
    destruct (Py.truthy (_has_aws_storage_info self)); simpl; [discriminate|].
    destruct (Py.truthy (_has_gcs_storage_info self)); simpl; [discriminate|].
    intros _. right. left. done. }
  destruct (Py.truthy (_has_aws_storage_info self)); simpl; [discriminate|].
  destruct (Py.truthy (_has_azure_storage_info self)); simpl; [discriminate|].
  intros _. right. right.
  repeat split; try reflexivity; intros E; apply eq_true in E; congruence.
Qed.

(** X1: rule 2.  On an UPDATE that gives allowed locations, [validate]
    raises when the storage type is missing; an UPDATE without allowed
    locations is judged by the storage cross-checks alone. *)
Theorem validate_update_allowed_locations (self : CatalogsCommand) :
  catalogs_subcommand self = Some Subcommands.UPDATE →
  (Py.truthy_list (allowed_locations self) = true →
   Py.truthy (storage_type self) = false →
   validate self = Err missing_storage_type_for_update)
  ∧ (Py.truthy_list (allowed_locations self) = false →
     validate self = validate_storage self).
Proof.
  intros Hsub.
  assert (Hc : validate_create self = Ok tt).
  { apply validate_create_other. by rewrite Hsub. }
  split.
  - intros Hal Hst. rewrite validate_steps, Hc.
    unfold validate_update. by rewrite Hsub, Hal, Hst.
  - intros Hal. apply validate_after_rules; [exact Hc|].
    unfold validate_update. by rewrite Hsub, Hal.
Qed.

(** X1 on [polaris catalogs update c1 --allowed-location s3://b/q]. *)
Lemma validate_update_allowed_locations_witness :
  catalogs_subcommand Case.update_locations = Some Subcommands.UPDATE
  ∧ validate Case.update_locations = Err missing_storage_type_for_update.
Proof.
  split; [reflexivity|].
  destruct (validate_update_allowed_locations Case.update_locations eq_refl) as [H _].
  apply H; reflexivity.
Defined.

(** X2: a command that passes [validate] has storage fields of one family at
    most: never AWS with Azure, AWS with GCS, or Azure with GCS. *)
Theorem validate_exclusive (self : CatalogsCommand) :
  validate self = Ok tt →
  let aws := Py.truthy (_has_aws_storage_info self) in
  let azure := Py.truthy (_has_azure_storage_info self) in
  let gcs := Py.truthy (_has_gcs_storage_info self) in
  aws && azure = false ∧ aws && gcs = false ∧ azure && gcs = false.
Proof.
  intros Hv aws azure gcs. subst aws azure gcs.
  destruct (validate_Ok self Hv) as (_ & _ & Hs).
  destruct (validate_storage_Ok self Hs)
    as [(_ & _ & Haz & Hg) | [(_ & _ & Haws & Hg) | (_ & _ & Haws & Haz)]].
  - rewrite Haz, Hg, !andb_false_r. done.
  - rewrite Haws, Hg, !andb_false_r. done.
  - rewrite Haws, Haz. done.
Qed.

(** X2 on the sample CREATE of an external S3 catalog. *)
Lemma validate_exclusive_witness :
  validate Sample.create_s3_external = Ok tt
  ∧ Py.truthy (_has_aws_storage_info Sample.create_s3_external) = true
  ∧ Py.truthy (_has_azure_storage_info Sample.create_s3_external) = false.
Proof.
  split; [reflexivity|]. split; [reflexivity|].
  destruct (validate_exclusive Sample.create_s3_external eq_refl) as [H _].
  exact H.
Defined.

(** X3: [validate] lets a field of AWS through only with the storage type S3
    and a role: an external id or a user ARN alone, or any of the three
    without [--storage-type s3], is refused. *)
Theorem validate_aws_needs_s3 (self : CatalogsCommand) :
  validate self = Ok tt →
  Py.truthy (role_arn self) = true ∨ Py.truthy (external_id self) = true
  ∨ Py.truthy (user_arn self) = true →
  storage_type self = Some StorageType.S3 ∧ Py.truthy (role_arn self) = true.
Proof.
  intros Hv Hany.
  assert (Haws : Py.truthy (_has_aws_storage_info self) = true).
  { rewrite has_aws_truthy.
    destruct Hany as [-> | [-> | ->]]; rewrite ?orb_true_r; reflexivity. }
  destruct (validate_Ok self Hv) as (_ & _ & Hs).
  destruct (validate_storage_Ok self Hs)
    as [(Hst & Hrole & _) | [(_ & _ & Hno & _) | (_ & _ & Hno & _)]];
    [done | congruence | congruence].
Qed.

(** X3 on the sample UPDATE that gives an external id. *)
Lemma validate_aws_needs_s3_witness :
  validate Case.update_external_id = Ok tt
  ∧ Py.truthy (external_id Case.update_external_id) = true
  ∧ storage_type Case.update_external_id = Some "s3"
  ∧ Py.truthy (role_arn Case.update_external_id) = true.
Proof.
  split; [reflexivity|]. split; [reflexivity|].
  apply (validate_aws_needs_s3 Case.update_external_id eq_refl).
  right. left. reflexivity.
Defined.

(** X4: [validate] lets a field of Azure through only with the storage type
    AZURE and a tenant. *)
Theorem validate_azure_needs_azure (self : CatalogsCommand) :
  validate self = Ok tt →
  Py.truthy (tenant_id self) = true ∨ Py.truthy (multi_tenant_app_name self) = true
  ∨ Py.truthy (consent_url self) = true →
  storage_type self = Some StorageType.AZURE ∧ Py.truthy (tenant_id self) = true.
Proof.
  intros Hv Hany.
  assert (Haz : Py.truthy (_has_azure_storage_info self) = true).
  { rewrite has_azure_truthy.
    destruct Hany as [-> | [-> | ->]]; rewrite ?orb_true_r; reflexivity. }
  destruct (validate_Ok self Hv) as (_ & _ & Hs).
  destruct (validate_storage_Ok self Hs)
    as [(_ & _ & Hno & _) | [(Hst & Hten & _) | (_ & _ & _ & Hno)]];
    [congruence | done | congruence].
Qed.

(** X4 on the sample UPDATE for Azure. *)
Lemma validate_azure_needs_azure_witness :
  validate Case.update_azure = Ok tt
  ∧ Py.truthy (consent_url Case.update_azure) = true
  ∧ storage_type Case.update_azure = Some "azure"
  ∧ Py.truthy (tenant_id Case.update_azure) = true.
Proof.
  split; [reflexivity|]. split; [reflexivity|].
  apply (validate_azure_needs_azure Case.update_azure eq_refl).
  right. right. reflexivity.
Defined.

(** X5: [validate] lets a service account through with every storage type
    but S3 and AZURE, a missing one included: it is never asked for, and
    the storage type GCS is not required for it. *)
Theorem validate_service_account (self : CatalogsCommand) :
  validate self = Ok tt →
  Py.truthy (service_account self) = true →
  storage_type self ≠ Some StorageType.S3
  ∧ storage_type self ≠ Some StorageType.AZURE
  ∧ Py.truthy (_has_aws_storage_info self) = false
  ∧ Py.truthy (_has_azure_storage_info self) = false.
Proof.
  intros Hv Hsa.
  destruct (validate_Ok self Hv) as (_ & _ & Hs).
  destruct (validate_storage_Ok self Hs)
    as [(_ & _ & _ & Hno) | [(_ & _ & _ & Hno) | H]].
  - rewrite has_gcs_truthy in Hno. congruence.
  - rewrite has_gcs_truthy in Hno. congruence.
  - exact H.
Qed.

(** X5 on [polaris catalogs update c1 --service-account sa@p.iam]. *)
Lemma validate_service_account_witness :
  validate Sample.update_service_account = Ok tt
  ∧ Py.truthy (service_account Sample.update_service_account) = true
  ∧ storage_type Sample.update_service_account = None
  ∧ Py.truthy (_has_aws_storage_info Sample.update_service_account) = false.
Proof.
  split; [reflexivity|]. split; [reflexivity|]. split; [reflexivity|].
  destruct (validate_service_account Sample.update_service_account eq_refl eq_refl)
    as (_ & _ & H & _).
  exact H.
Defined.

(** ** [validate], then [_build_storage_config_info] *)

(** X6: for a command that passes [validate] with the storage type GCS, the
    configuration built has neither a tenant nor an application name: the
    two fields its constructor is given are fields of Azure, which
    [validate] has just refused, and the service account, the one field
    [validate] lets through, is not passed on. *)
Theorem validated_gcs_config (self : CatalogsCommand) :
  validate self = Ok tt →
  storage_type self = Some StorageType.GCS →
  ∃ tenant app : Py.str,
    _build_storage_config_info self
    = Some (GcpStorageConfigInfo "GCS" (allowed_locations self) tenant app)
    ∧ Py.truthy tenant = false ∧ Py.truthy app = false.
Proof.
  intros Hv Hst.
  destruct (validate_Ok self Hv) as (_ & _ & Hs).
  exists (tenant_id self), (multi_tenant_app_name self).
  split; [rewrite build_cases, Hst; reflexivity|].
  destruct (validate_storage_Ok self Hs)
    as [(E & _) | [(E & _) | (_ & _ & _ & Hno)]];
    [rewrite Hst in E; discriminate | rewrite Hst in E; discriminate |].
  rewrite has_azure_truthy in Hno.
  apply orb_false_elim in Hno as [Hno _].
  by apply orb_false_elim in Hno.
Qed.

(** X6 on a CREATE for GCS that passes [validate] and has a service
    account. *)
Lemma validated_gcs_config_witness :
  validate Case.create_gcs_valid = Ok tt
  ∧ storage_type Case.create_gcs_valid = Some StorageType.GCS
  ∧ service_account Case.create_gcs_valid = Some "sa@p.iam"
  ∧ ∃ tenant app : Py.str,
      _build_storage_config_info Case.create_gcs_valid
      = Some (GcpStorageConfigInfo "GCS" (Some ["gs://b/p"]) tenant app)
      ∧ Py.truthy tenant = false ∧ Py.truthy app = false.
Proof.
  split; [reflexivity|]. split; [reflexivity|]. split; [reflexivity|].
  exact (validated_gcs_config Case.create_gcs_valid eq_refl eq_refl).
Defined.

(** X7: an UPDATE that passes [validate] and gives a field of AWS or of
    Azure always sends a storage configuration, of that family: the AWS one
    with the role, the Azure one with the tenant.  (A request without one
    despite storage options comes from allowed locations or a service
    account only.) *)
Theorem validated_update_config
    (self : CatalogsCommand) (api : PolarisDefaultApi) (fetched : Catalog) :
  validate self = Ok tt →
  catalogs_subcommand self = Some Subcommands.UPDATE →
  get_catalog api (catalog_name self) = Ok fetched →
  Py.truthy (_has_aws_storage_info self) = true
  ∨ Py.truthy (_has_azure_storage_info self) = true →
  ∃ (request : UpdateCatalogRequest) (config : StorageConfigInfo),
    (execute self api).1
    = [GetCatalog (catalog_name self); UpdateCatalog (catalog_name self) request]
    ∧ ucr_storage_config_info request = Some config
    ∧ (Py.truthy (_has_aws_storage_info self) = true →
       Py.truthy (role_arn self) = true
       ∧ config = AwsStorageConfigInfo "S3" (allowed_locations self)
                    (role_arn self) (external_id self) (user_arn self))
    ∧ (Py.truthy (_has_azure_storage_info self) = true →
       Py.truthy (tenant_id self) = true
       ∧ config = AzureStorageConfigInfo "AZURE" (allowed_locations self)
                    (tenant_id self) (multi_tenant_app_name self) (consent_url self)).
Proof.
  intros Hv Hsub Hget Hany.
  rewrite (execute_update self api Hsub), Hget.
  destruct (validate_Ok self Hv) as (_ & _ & Hs).
  assert (Hopt : has_storage_option self = true).
  { unfold has_storage_option.
    destruct Hany as [-> | ->]; rewrite ?orb_true_r; reflexivity. }
  exists (update_request self fetched).
  destruct (validate_storage_Ok self Hs)
    as [(Hst & Hrole & Haz & _) | [(Hst & Hten & Haws & _) | (_ & _ & Haws & Haz)]].
  - eexists. split; [reflexivity|].
    split; [by rewrite update_request_config, Hopt, build_cases, Hst|].
    split; [done|]. intros H. congruence.
  - eexists. split; [reflexivity|].
    split; [by rewrite update_request_config, Hopt, build_cases, Hst|].
    split; [|done]. intros H. congruence.
  - destruct Hany; congruence.
Qed.

(** X7 on the sample UPDATE that changes the role of an S3 catalog. *)
Lemma validated_update_config_witness :
  validate Sample.update_role = Ok tt
  ∧ catalogs_subcommand Sample.update_role = Some Subcommands.UPDATE
  ∧ get_catalog Sample.service (catalog_name Sample.update_role) = Ok Sample.c1
  ∧ Py.truthy (_has_aws_storage_info Sample.update_role) = true
  ∧ ∃ (request : UpdateCatalogRequest) (config : StorageConfigInfo),
      (execute Sample.update_role Sample.service).1
      = [GetCatalog (Some "c1"); UpdateCatalog (Some "c1") request]
      ∧ ucr_storage_config_info request = Some config
      ∧ config_type config = "S3".
Proof.
  split; [reflexivity|]. split; [reflexivity|]. split; [reflexivity|].
  split; [reflexivity|].
  destruct (validated_update_config Sample.update_role Sample.service Sample.c1
              eq_refl eq_refl eq_refl (or_introl eq_refl))
    as (request & config & Hrun & Hcfg & Haws & _).
  exists request, config. split; [exact Hrun|]. split; [exact Hcfg|].
  destruct (Haws eq_refl) as [_ ->]. reflexivity.
Defined.

(** The request of a CREATE, by the catalog type. *)
Lemma create_request_cases (self : CatalogsCommand) (ct : string) :
  catalog_type self = Some ct →
  create_request self =
    let props := {| cp_default_base_location := default_base_location self;
                    cp_additional_properties := properties self |} in
    if String.eqb ct CatalogType.EXTERNAL then
      Ok {| ccr_catalog :=
              ExternalCatalog (Py.upper ct) (catalog_name self)
                (_build_storage_config_info self) (remote_url self) props |}
    else
      Ok {| ccr_catalog :=
              PolarisCatalog (Py.upper ct) (catalog_name self)
                (_build_storage_config_info self) props |}.
Proof.
  intros Hct. unfold create_request. rewrite Hct, eq_Some.
  destruct (String.eqb ct CatalogType.EXTERNAL); reflexivity.
Qed.

(** X8: a CREATE that passes [validate], with a catalog type that is a
    string of ASCII characters, makes the one call [create_catalog]; the
    request has a base
    location, the type in upper case, and, when it is an
    [ExternalCatalog], a remote URL; its storage configuration is there
    exactly when the storage type is one of S3, AZURE and GCS, so that a
    CREATE with another storage type passes [validate] and is sent without
    one. *)
Theorem validated_create
    (self : CatalogsCommand) (api : PolarisDefaultApi) (ct : string) :
  validate self = Ok tt →
  catalogs_subcommand self = Some Subcommands.CREATE →
  catalog_type self = Some ct →
  Py.is_ascii ct = true →
  ∃ request : CreateCatalogRequest,
    execute self api = ([CreateCatalog request], create_catalog api request)
    ∧ match ccr_catalog request with
      | ExternalCatalog type name config url props =>
          ct = CatalogType.EXTERNAL ∧ type = Py.upper ct ∧ name = catalog_name self
          ∧ Py.truthy url = true
          ∧ Py.truthy (cp_default_base_location props) = true
          ∧ (is_Some config ↔
             storage_type self = Some StorageType.S3
             ∨ storage_type self = Some StorageType.AZURE
             ∨ storage_type self = Some StorageType.GCS)
      | PolarisCatalog type name config props =>
          ct ≠ CatalogType.EXTERNAL ∧ type = Py.upper ct ∧ name = catalog_name self
          ∧ Py.truthy (cp_default_base_location props) = true
          ∧ (is_Some config ↔
             storage_type self = Some StorageType.S3
             ∨ storage_type self = Some StorageType.AZURE
             ∨ storage_type self = Some StorageType.GCS)
      end.
Proof.
  intros Hv Hsub Hct _.
  destruct (validate_Ok self Hv) as (Hc & _ & _).
  rewrite (validate_create_cases self Hsub) in Hc.
  destruct (Py.truthy (storage_type self)) eqn:Est; [|discriminate].
  destruct (Py.truthy (default_base_location self)) eqn:Edbl; [|discriminate].
  simpl in Hc.
  assert (Hcfg : is_Some (_build_storage_config_info self) ↔
                 storage_type self = Some StorageType.S3
                 ∨ storage_type self = Some StorageType.AZURE
                 ∨ storage_type self = Some StorageType.GCS).
  { rewrite build_cases.
    destruct (Py.eq (storage_type self) StorageType.S3) eqn:E1.
    { apply eq_true in E1. split; [by left | by eexists]. }
    destruct (Py.eq (storage_type self) StorageType.AZURE) eqn:E2.
    { apply eq_true in E2. split; [by right; left | by eexists]. }
    destruct (Py.eq (storage_type self) StorageType.GCS) eqn:E3.
    { apply eq_true in E3. split; [by right; right | by eexists]. }
    split; [by intros [? ?]|].
    intros [E | [E | E]]; apply eq_true in E; congruence. }
  rewrite (execute_create self api Hsub), (create_request_cases self ct Hct).
  rewrite Hct, eq_Some in Hc. simpl.
  destruct (String.eqb ct CatalogType.EXTERNAL) eqn:E.
  - apply String.eqb_eq in E. eexists. split; [reflexivity|]. simpl.
    simpl in Hc. destruct (Py.truthy (remote_url self)) eqn:Eurl; [|discriminate].
    done.
  - apply String.eqb_neq in E. eexists. split; [reflexivity|]. simpl. done.
Qed.

(** X8 on the sample CREATE of an external S3 catalog. *)
Lemma validated_create_witness :
  validate Sample.create_s3_external = Ok tt
  ∧ catalogs_subcommand Sample.create_s3_external = Some Subcommands.CREATE
  ∧ catalog_type Sample.create_s3_external = Some "external"
  ∧ Py.is_ascii "external" = true
  ∧ ∃ request : CreateCatalogRequest,
      execute Sample.create_s3_external Sample.service = ([CreateCatalog request], Ok tt).
Proof.
  split; [reflexivity|]. split; [reflexivity|]. split; [reflexivity|].
  split; [reflexivity|].
  destruct (validated_create Sample.create_s3_external Sample.service "external"
              eq_refl eq_refl eq_refl eq_refl) as (request & Hrun & _).
  exists request. exact Hrun.
Defined.

(** ** [execute]: the runs of the subcommands *)

(** Printing the catalogs of a list prints them all, in order, and ends
    well. *)
Lemma for_each_print (catalogs : list Catalog) :
  for_each catalogs (fun catalog => call (PrintJson catalog) (Ok tt))
  = (map PrintJson catalogs, Ok tt).
Proof.
  induction catalogs as [|c cs IH]; [reflexivity|].
  cbn [for_each]. unfold mbind, cmd_bind. by rewrite IH.
Qed.

(** [execute], branch by branch, with the run of each written out. *)
Lemma execute_cases (self : CatalogsCommand) (api : PolarisDefaultApi) :
  let name := catalog_name self in
  execute self api =
    if Py.eq (catalogs_subcommand self) Subcommands.CREATE then
      match create_request self with
      | Ok request => ([CreateCatalog request], create_catalog api request)
      | Err e => ([], Err e)
      end
    else if Py.eq (catalogs_subcommand self) Subcommands.DELETE then
      ([DeleteCatalog name], delete_catalog api name)
    else if Py.eq (catalogs_subcommand self) Subcommands.GET then
      match get_catalog api name with
      | Ok catalog => ([GetCatalog name; PrintJson catalog], Ok tt)
      | Err e => ([GetCatalog name], Err e)
      end
    else if Py.eq (catalogs_subcommand self) Subcommands.LIST then
      match list_catalogs api with
      | Ok catalogs => (ListCatalogs :: map PrintJson catalogs, Ok tt)
      | Err e => ([ListCatalogs], Err e)
      end
    else if Py.eq (catalogs_subcommand self) Subcommands.UPDATE then
      match get_catalog api name with
      | Ok fetched =>
          ([GetCatalog name; UpdateCatalog name (update_request self fetched)],
           update_catalog api name (update_request self fetched))
      | Err e => ([GetCatalog name], Err e)
      end
    else ([], Err (unsupported (catalogs_subcommand self))).
Proof.
  intros name. unfold execute.
  destruct (Py.eq (catalogs_subcommand self) Subcommands.CREATE).
  { destruct (create_request self); reflexivity. }
  destruct (Py.eq (catalogs_subcommand self) Subcommands.DELETE); [reflexivity|].
  destruct (Py.eq (catalogs_subcommand self) Subcommands.GET).
  { fold name. destruct (get_catalog api name); reflexivity. }
  destruct (Py.eq (catalogs_subcommand self) Subcommands.LIST).
  { destruct (list_catalogs api) as [catalogs|e]; [|reflexivity].
    unfold mbind, cmd_bind, call at 1. by rewrite for_each_print. }
  destruct (Py.eq (catalogs_subcommand self) Subcommands.UPDATE); [|reflexivity].
  fold name. destruct (get_catalog api name); reflexivity.
Qed.

Lemma api_calls_prints (catalogs : list Catalog) :
  List.filter is_api_call (map PrintJson catalogs) = [].
Proof. induction catalogs as [|c cs IH]; [reflexivity|exact IH]. Qed.

Lemma mutations_prints (catalogs : list Catalog) :
  List.filter is_mutation (map PrintJson catalogs) = [].
Proof. induction catalogs as [|c cs IH]; [reflexivity|exact IH]. Qed.

(** X9: GET asks for the catalog of the given name and prints what it gets;
    when the service raises, nothing is printed and the exception is that
    of the service. *)
Theorem execute_get (self : CatalogsCommand) (api : PolarisDefaultApi) :
  catalogs_subcommand self = Some Subcommands.GET →
  (∀ catalog, get_catalog api (catalog_name self) = Ok catalog →
     execute self api = ([GetCatalog (catalog_name self); PrintJson catalog], Ok tt))
  ∧ (∀ e, get_catalog api (catalog_name self) = Err e →
       execute self api = ([GetCatalog (catalog_name self)], Err e)).
Proof.
  intros Hsub. pose proof (execute_cases self api) as H. simpl in H.
  rewrite Hsub in H. simpl in H.
  split; intros x Hget; by rewrite H, Hget.
Qed.

(** X9 on [polaris catalogs get zz], a catalog the service does not have. *)
Lemma execute_get_witness :
  catalogs_subcommand (Case.plain "get" "zz") = Some Subcommands.GET
  ∧ execute (Case.plain "get" "zz") Sample.service
    = ([GetCatalog (Some "zz")], Err (ApiException "Not Found")).
Proof.
  split; [reflexivity|].
  destruct (execute_get (Case.plain "get" "zz") Sample.service eq_refl) as [_ H].
  apply H. reflexivity.
Defined.

(** X10: LIST makes the one call [list_catalogs] and prints every catalog
    of the answer, in the order of the answer; an empty answer prints
    nothing and is no error; when the service raises, nothing is printed. *)
Theorem execute_list (self : CatalogsCommand) (api : PolarisDefaultApi) :
  catalogs_subcommand self = Some Subcommands.LIST →
  (∀ catalogs, list_catalogs api = Ok catalogs →
     execute self api = (ListCatalogs :: map PrintJson catalogs, Ok tt))
  ∧ (list_catalogs api = Ok [] → execute self api = ([ListCatalogs], Ok tt))
  ∧ (∀ e, list_catalogs api = Err e → execute self api = ([ListCatalogs], Err e)).
Proof.
  intros Hsub. pose proof (execute_cases self api) as H. simpl in H.
  rewrite Hsub in H. simpl in H.
  split; [|split].
  - intros catalogs Hl. by rewrite H, Hl.
  - intros Hl. by rewrite H, Hl.
  - intros e Hl. by rewrite H, Hl.
Qed.

(** X10 on [polaris catalogs list] against a service with two catalogs. *)
Lemma execute_list_witness :
  catalogs_subcommand (Case.plain "list" "") = Some Subcommands.LIST
  ∧ execute (Case.plain "list" "") Case.read_only
    = ([ListCatalogs; PrintJson Sample.c1; PrintJson Case.c2], Ok tt).
Proof.
  split; [reflexivity|].
  destruct (execute_list (Case.plain "list" "") Case.read_only eq_refl) as [H _].
  apply (H [Sample.c1; Case.c2]). reflexivity.
Defined.

(** X11: with a subcommand that is none of the five, an unset one included,
    [execute] calls nothing and raises [<subcommand> is not supported in
    the CLI]; for an unset subcommand the text starts with [None]. *)
Theorem execute_unsupported (self : CatalogsCommand) (api : PolarisDefaultApi) :
  catalogs_subcommand self ≠ Some Subcommands.CREATE →
  catalogs_subcommand self ≠ Some Subcommands.DELETE →
  catalogs_subcommand self ≠ Some Subcommands.GET →
  catalogs_subcommand self ≠ Some Subcommands.LIST →
  catalogs_subcommand self ≠ Some Subcommands.UPDATE →
  execute self api
  = ([], Err (Exception (Py.format (catalogs_subcommand self) ++ " is not supported in the CLI")))
  ∧ (catalogs_subcommand self = None →
     execute self api = ([], Err (Exception "None is not supported in the CLI"))).
Proof.
  intros H1 H2 H3 H4 H5. pose proof (execute_cases self api) as H. simpl in H.
  rewrite !eq_false in H by assumption.
  split; [exact H|]. intros Hnone. by rewrite H, Hnone.
Qed.

(** X11 on a command with nothing set. *)
Lemma execute_unsupported_witness :
  catalogs_subcommand Case.blank = None
  ∧ execute Case.blank Sample.service
    = ([], Err (Exception "None is not supported in the CLI")).
Proof.
  split; [reflexivity|].
  destruct (execute_unsupported Case.blank Sample.service) as [_ H]; try discriminate.
  apply H. reflexivity.
Defined.

(** X12: an UPDATE whose [get_catalog] raises stops there: [update_catalog]
    is not called and the exception is that of [get_catalog]; when the
    catalog is fetched, what [execute] returns or raises is what
    [update_catalog] does. *)
Theorem execute_update_read_then_write (self : CatalogsCommand) (api : PolarisDefaultApi) :
  catalogs_subcommand self = Some Subcommands.UPDATE →
  (∀ e, get_catalog api (catalog_name self) = Err e →
     execute self api = ([GetCatalog (catalog_name self)], Err e))
  ∧ (∀ fetched, get_catalog api (catalog_name self) = Ok fetched →
       ∃ request,
         (execute self api).1
         = [GetCatalog (catalog_name self); UpdateCatalog (catalog_name self) request]
         ∧ (execute self api).2 = update_catalog api (catalog_name self) request
         ∧ cat_name (ucr_catalog request) = cat_name fetched
         ∧ cat_type (ucr_catalog request) = cat_type fetched
         ∧ cat_entity_version (ucr_catalog request) = cat_entity_version fetched).
Proof.
  intros Hsub. rewrite (execute_update self api Hsub). split.
  - intros e Hget. by rewrite Hget.
  - intros fetched Hget. rewrite Hget. exists (update_request self fetched).
    split; [reflexivity|]. split; [reflexivity|].
    unfold update_request. by destruct (has_storage_option self).
Qed.

(** X12 on [polaris catalogs update zz], a catalog the service does not
    have. *)
Lemma execute_update_read_then_write_witness :
  catalogs_subcommand (Case.plain "update" "zz") = Some Subcommands.UPDATE
  ∧ execute (Case.plain "update" "zz") Sample.service
    = ([GetCatalog (Some "zz")], Err (ApiException "Not Found")).
Proof.
  split; [reflexivity|].
  destruct (execute_update_read_then_write (Case.plain "update" "zz") Sample.service eq_refl)
    as [H _].
  apply H. reflexivity.
Defined.

(** ** [execute]: what it calls, and what it raises *)

Lemma create_request_None (self : CatalogsCommand) :
  catalog_type self = None → create_request self = Err no_upper.
Proof. intros H. unfold create_request. by rewrite H. Qed.

Lemma create_request_Some (self : CatalogsCommand) :
  catalog_type self ≠ None → ∃ request, create_request self = Ok request.
Proof.
  destruct (catalog_type self) as [ct|] eqn:E; [intros _|done].
  rewrite (create_request_cases self ct E). simpl.
  destruct (String.eqb ct CatalogType.EXTERNAL); eexists; reflexivity.
Qed.

(** X13: a run of [execute] makes two calls on the API at most, and two
    only on an UPDATE; at most one of them changes anything, and none does
    on a GET or a LIST; an [update_catalog] comes only after a
    [get_catalog] of the same name. *)
Theorem execute_call_bounds (self : CatalogsCommand) (api : PolarisDefaultApi) :
  let run := (execute self api).1 in
  (api_calls run ≤ 2)%nat
  ∧ (mutations run ≤ 1)%nat
  ∧ (catalogs_subcommand self ≠ Some Subcommands.UPDATE → (api_calls run ≤ 1)%nat)
  ∧ (catalogs_subcommand self = Some Subcommands.GET
     ∨ catalogs_subcommand self = Some Subcommands.LIST → mutations run = 0)
  ∧ (∀ name request, In (UpdateCatalog name request) run →
       ∃ rest, run = GetCatalog name :: UpdateCatalog name request :: rest).
Proof.
  intros run. subst run. rewrite execute_cases. cbv zeta.
  unfold api_calls, mutations.
  destruct (Py.eq (catalogs_subcommand self) Subcommands.CREATE) eqn:E1.
  { apply eq_true in E1.
    destruct (create_request self); simpl.
    - split; [lia|]. split; [lia|]. split; [lia|]. split.
      + intros [H|H]; rewrite E1 in H; discriminate.
      + intros name request [H|[]]. discriminate.
    - split; [lia|]. split; [lia|]. split; [lia|]. split; [done|].
      intros name request []. }
  destruct (Py.eq (catalogs_subcommand self) Subcommands.DELETE) eqn:E2.
  { apply eq_true in E2. simpl.
    split; [lia|]. split; [lia|]. split; [lia|]. split.
    - intros [H|H]; rewrite E2 in H; discriminate.
    - intros name request [H|[]]. discriminate. }
  destruct (Py.eq (catalogs_subcommand self) Subcommands.GET) eqn:E3.
  { destruct (get_catalog api (catalog_name self)); simpl.
    - split; [lia|]. split; [lia|]. split; [lia|]. split; [done|].
      intros name request [H|[H|[]]]; discriminate.
    - split; [lia|]. split; [lia|]. split; [lia|]. split; [done|].
      intros name request [H|[]]; discriminate. }
  destruct (Py.eq (catalogs_subcommand self) Subcommands.LIST) eqn:E4.
  { destruct (list_catalogs api) as [catalogs|e]; simpl.
    - rewrite api_calls_prints, mutations_prints. simpl.
      split; [lia|]. split; [lia|]. split; [lia|]. split; [done|].
      intros name request [H|H]; [discriminate|].
      apply in_map_iff in H as (c & H & _). discriminate.
    - split; [lia|]. split; [lia|]. split; [lia|]. split; [done|].
      intros name request [H|[]]; discriminate. }
  destruct (Py.eq (catalogs_subcommand self) Subcommands.UPDATE) eqn:E5.
  { apply eq_true in E5.
    destruct (get_catalog api (catalog_name self)); simpl.
    - split; [lia|]. split; [lia|]. split; [intros H; contradiction|]. split.
      + intros [H|H]; rewrite E5 in H; discriminate.
      + intros name request [H|[H|[]]]; [discriminate|].
        injection H as <- <-. by exists [].
    - split; [lia|]. split; [lia|]. split; [lia|]. split; [done|].
      intros name request [H|[]]; discriminate. }
  simpl. split; [lia|]. split; [lia|]. split; [lia|]. split; [done|].
  intros name request [].
Qed.

(** X13 on the sample UPDATE: two calls, one of them a change. *)
Lemma execute_call_bounds_witness :
  api_calls (execute Sample.update_merge Sample.service).1 = 2
  ∧ mutations (execute Sample.update_merge Sample.service).1 = 1
  ∧ (api_calls (execute (Case.plain "list" "") Case.read_only).1 ≤ 1)%nat.
Proof.
  split; [reflexivity|]. split; [reflexivity|].
  destruct (execute_call_bounds (Case.plain "list" "") Case.read_only) as (_ & _ & H & _).
  apply H. discriminate.
Defined.

(** X14: when [execute] raises, the exception is the answer of the last
    call of the run, as it is, and no call before it was answered with an
    exception; or the run is empty and the exception is one of the two
    [execute] raises itself: that of an unsupported subcommand, and, on a
    CREATE whose catalog type is unset, the [AttributeError] of [upper]. *)
Theorem execute_error_origin
    (self : CatalogsCommand) (api : PolarisDefaultApi) (run : list event) (e : exn) :
  execute self api = (run, Err e) →
  (∃ (earlier : list event) (last : event),
     run = (earlier ++ [last])%list
     ∧ answers api last e
     ∧ Forall (fun ev => ∀ e', ¬ answers api ev e') earlier)
  ∨ (e = no_upper ∧ run = []
     ∧ catalogs_subcommand self = Some Subcommands.CREATE ∧ catalog_type self = None)
  ∨ (e = unsupported (catalogs_subcommand self) ∧ run = []
     ∧ catalogs_subcommand self ≠ Some Subcommands.CREATE
     ∧ catalogs_subcommand self ≠ Some Subcommands.DELETE
     ∧ catalogs_subcommand self ≠ Some Subcommands.GET
     ∧ catalogs_subcommand self ≠ Some Subcommands.LIST
     ∧ catalogs_subcommand self ≠ Some Subcommands.UPDATE).
Proof.
  rewrite execute_cases. cbv zeta.
  destruct (Py.eq (catalogs_subcommand self) Subcommands.CREATE) eqn:E1.
  { apply eq_true in E1.
    destruct (catalog_type self) as [ct|] eqn:Ect.
    - destruct (create_request_Some self) as [request ->]; [by rewrite Ect|].
      intros [= <- H]. left. exists [], (CreateCatalog request).
      split; [reflexivity|]. split; [exact H | constructor].
    - rewrite (create_request_None self Ect).
      intros [= <- <-]. right. left. done. }
  destruct (Py.eq (catalogs_subcommand self) Subcommands.DELETE) eqn:E2.
  { intros [= <- H]. left. exists [], (DeleteCatalog (catalog_name self)).
    split; [reflexivity|]. split; [exact H | constructor]. }
  destruct (Py.eq (catalogs_subcommand self) Subcommands.GET) eqn:E3.
  { destruct (get_catalog api (catalog_name self)) eqn:Hget; [discriminate|].
    intros [= <- <-]. left. exists [], (GetCatalog (catalog_name self)).
    split; [reflexivity|]. split; [exact Hget | constructor]. }
  destruct (Py.eq (catalogs_subcommand self) Subcommands.LIST) eqn:E4.
  { destruct (list_catalogs api) eqn:Hl; [discriminate|].
    intros [= <- <-]. left. exists [], ListCatalogs.
    split; [reflexivity|]. split; [exact Hl | constructor]. }
  destruct (Py.eq (catalogs_subcommand self) Subcommands.UPDATE) eqn:E5.
  { destruct (get_catalog api (catalog_name self)) as [fetched|e0] eqn:Hget.
    - intros [= <- H]. left.
      exists [GetCatalog (catalog_name self)],
             (UpdateCatalog (catalog_name self) (update_request self fetched)).
      split; [reflexivity|]. split; [exact H|].
      constructor; [|constructor].
      intros e' He'. simpl in He'. congruence.
    - intros [= <- <-]. left. exists [], (GetCatalog (catalog_name self)).
      split; [reflexivity|]. split; [exact Hget | constructor]. }
  intros [= <- <-]. right. right.
  repeat split; try reflexivity; intros H; apply eq_true in H; congruence.
Qed.

(** X14 on [polaris catalogs get zz] against a service that refuses
    changes and does not have [zz]: the exception is [Not Found], the
    answer of the [get_catalog] made, not the [Forbidden] another call
    would have been answered with. *)
Lemma execute_error_origin_witness :
  execute (Case.plain "get" "zz") Case.read_only
  = ([GetCatalog (Some "zz")], Err (ApiException "Not Found"))
  ∧ delete_catalog Case.read_only (Some "zz") = Err (ApiException "Forbidden")
  ∧ ∃ (earlier : list event) (last : event),
      [GetCatalog (Some "zz")] = (earlier ++ [last])%list
      ∧ answers Case.read_only last (ApiException "Not Found").
Proof.
  split; [reflexivity|]. split; [reflexivity|].
  destruct (execute_error_origin (Case.plain "get" "zz") Case.read_only _ _ eq_refl)
    as [(earlier & last & Hrun & Hlast & _) | [(H & _) | (H & _)]].
  - exists earlier, last. split; [exact Hrun | exact Hlast].
  - discriminate H.
  - discriminate H.
Defined.

(** X15: against a service no call of which raises, [execute] ends well for
    each of the five subcommands, but for a CREATE whose catalog type is
    unset. *)
Theorem execute_succeeds (self : CatalogsCommand) (api : PolarisDefaultApi) :
  (∀ e, ¬ raised_by api e) →
  catalogs_subcommand self = Some Subcommands.CREATE ∧ catalog_type self ≠ None
  ∨ catalogs_subcommand self = Some Subcommands.DELETE
  ∨ catalogs_subcommand self = Some Subcommands.GET
  ∨ catalogs_subcommand self = Some Subcommands.LIST
  ∨ catalogs_subcommand self = Some Subcommands.UPDATE →
  (execute self api).2 = Ok tt.
Proof.
  intros Hapi Hsub. rewrite execute_cases. cbv zeta.
  assert (Hunit : ∀ r : result unit, (∀ e, r = Err e → raised_by api e) → r = Ok tt).
  { intros [[]|e] H; [reflexivity|]. destruct (Hapi e). by apply H. }
  destruct Hsub as [[-> Hct] | [-> | [-> | [-> | ->]]]]; simpl.
  - destruct (create_request_Some self Hct) as [request ->]. simpl.
    apply Hunit. intros e H. left. by exists request.
  - apply Hunit. intros e H. right. left. by eexists.
  - destruct (get_catalog api (catalog_name self)) as [c|e] eqn:Hget; [reflexivity|].
    destruct (Hapi e). right. right. left. by eexists.
  - destruct (list_catalogs api) as [cs|e] eqn:Hl; [reflexivity|].
    destruct (Hapi e). right. right. right. left. done.
  - destruct (get_catalog api (catalog_name self)) as [c|e] eqn:Hget.
    + simpl. apply Hunit. intros e H. right. right. right. right. by do 2 eexists.
    + destruct (Hapi e). right. right. left. by eexists.
Qed.

(** X15 on the sample UPDATE against a service that answers every call. *)
Lemma execute_succeeds_witness :
  (∀ e, ¬ raised_by Case.willing e)
  ∧ catalogs_subcommand Sample.update_merge = Some Subcommands.UPDATE
  ∧ (execute Sample.update_merge Case.willing).2 = Ok tt.
Proof.
  assert (H : ∀ e, ¬ raised_by Case.willing e).
  { intros e [[r H] | [[n H] | [[n H] | [H | (n & r & H)]]]]; discriminate. }
  split; [exact H|]. split; [reflexivity|].
  apply (execute_succeeds Sample.update_merge Case.willing H).
  right. right. right. right. reflexivity.
Defined.

(** X16: an UPDATE that gives neither a base location nor a property sends
    the catalog with no property at all, whatever it had at the service:
    changing the storage options alone wipes the properties. *)
Theorem update_without_properties
    (self : CatalogsCommand) (api : PolarisDefaultApi) (fetched : Catalog) :
  catalogs_subcommand self = Some Subcommands.UPDATE →
  get_catalog api (catalog_name self) = Ok fetched →
  Py.truthy (default_base_location self) = false →
  properties self = ∅ →
  ∃ request : UpdateCatalogRequest,
    (execute self api).1
    = [GetCatalog (catalog_name self); UpdateCatalog (catalog_name self) request]
    ∧ cat_properties (ucr_catalog request) = ∅.
Proof.
  intros Hsub Hget Hdbl Hprops. rewrite (execute_update self api Hsub), Hget.
  exists (update_request self fetched). split; [reflexivity|].
  apply map_eq. intros k.
  rewrite sent_properties_lookup, Hprops, Hdbl, !lookup_empty.
  by case_decide.
Qed.

(** X16 on the sample UPDATE that changes the role of [c1], which holds
    the property [a] at the service. *)
Lemma update_without_properties_witness :
  cat_properties Sample.c1 !! "a" = Some "1"
  ∧ ∃ request : UpdateCatalogRequest,
      (execute Sample.update_role Sample.service).1
      = [GetCatalog (Some "c1"); UpdateCatalog (Some "c1") request]
      ∧ cat_properties (ucr_catalog request) = ∅.
Proof.
  split; [reflexivity|].
  exact (update_without_properties Sample.update_role Sample.service Sample.c1
           eq_refl eq_refl eq_refl eq_refl).
Defined.

(** ** [validate]: what passes *)

Lemma validate_create_Ok (self : CatalogsCommand) :
  validate_create self = Ok tt ↔
  (catalogs_subcommand self = Some Subcommands.CREATE →
   Py.truthy (storage_type self) = true
   ∧ Py.truthy (default_base_location self) = true
   ∧ (catalog_type self = Some CatalogType.EXTERNAL → Py.truthy (remote_url self) = true)).
Proof.
  destruct (decide (catalogs_subcommand self = Some Subcommands.CREATE)) as [Hsub|Hsub].
  - rewrite (validate_create_cases self Hsub).
    destruct (Py.truthy (storage_type self)); simpl; [|split; [discriminate|]].
    2: { intros H. by destruct (H Hsub) as [? _]. }
    destruct (Py.truthy (default_base_location self)); simpl; [|split; [discriminate|]].
    2: { intros H. by destruct (H Hsub) as (_ & ? & _). }
    destruct (Py.eq (catalog_type self) CatalogType.EXTERNAL) eqn:E; simpl.
    + apply eq_true in E.
      destruct (Py.truthy (remote_url self)); simpl; [done|].
      split; [discriminate|]. intros H. destruct (H Hsub) as (_ & _ & H').
      specialize (H' E). discriminate.
    + split; [|done]. intros _ _. split; [done|]. split; [done|].
      intros H. apply eq_true in H. congruence.
  - rewrite validate_create_other by by apply eq_false.
    split; [by intros _ ?|done].
Qed.

Lemma validate_update_Ok (self : CatalogsCommand) :
  validate_update self = Ok tt ↔
  (catalogs_subcommand self = Some Subcommands.UPDATE →
   Py.truthy_list (allowed_locations self) = true →
   Py.truthy (storage_type self) = true).
Proof.
  unfold validate_update.
  destruct (Py.eq (catalogs_subcommand self) Subcommands.UPDATE) eqn:E.
  - apply eq_true in E.
    destruct (Py.truthy_list (allowed_locations self)); [|done].
    destruct (Py.truthy (storage_type self)); simpl; [done|].
    split; [discriminate|]. intros H. by specialize (H E eq_refl).
  - split; [|done]. intros _ H. apply eq_true in H. congruence.
Qed.

Lemma validate_storage_Ok_iff (self : CatalogsCommand) :
  validate_storage self = Ok tt ↔
  (storage_type self = Some StorageType.S3 →
   Py.truthy (role_arn self) = true
   ∧ Py.truthy (_has_azure_storage_info self) = false
   ∧ Py.truthy (_has_gcs_storage_info self) = false)
  ∧ (storage_type self = Some StorageType.AZURE →
     Py.truthy (tenant_id self) = true
     ∧ Py.truthy (_has_aws_storage_info self) = false
     ∧ Py.truthy (_has_gcs_storage_info self) = false)
  ∧ (storage_type self ≠ Some StorageType.S3 → storage_type self ≠ Some StorageType.AZURE →
     Py.truthy (_has_aws_storage_info self) = false
     ∧ Py.truthy (_has_azure_storage_info self) = false).
Proof.
  split.
  - intros H.
    destruct (validate_storage_Ok self H)
      as [(Hst & ? & ? & ?) | [(Hst & ? & ? & ?) | (? & ? & ? & ?)]].
    + split; [done|]. split; [rewrite Hst; discriminate|]. intros H'. by destruct H'.
    + split; [rewrite Hst; discriminate|]. split; [done|]. intros _ H'. by destruct H'.
    + split; [done|]. split; done.
  - intros (H1 & H2 & H3). unfold validate_storage.
    destruct (Py.eq (storage_type self) StorageType.S3) eqn:E1.
    { apply eq_true in E1. destruct (H1 E1) as (-> & -> & ->). reflexivity. }
    destruct (Py.eq (storage_type self) StorageType.AZURE) eqn:E2.
    { apply eq_true in E2. destruct (H2 E2) as (-> & -> & ->). reflexivity. }
    destruct H3 as [-> ->]; [| |reflexivity];
      intros E; apply eq_true in E; congruence.
Qed.

(** X17: what [validate] accepts, in full.  A command passes exactly when a
    CREATE has a storage type and a base location, and a remote URL if the
    catalog is EXTERNAL; an UPDATE with allowed locations has a storage
    type; with S3 there is a role and no field of Azure or GCS; with AZURE
    there is a tenant and no field of AWS or GCS; and with any other
    storage type, or none, there is no field of AWS or Azure. *)
Theorem validate_accepts (self : CatalogsCommand) :
  validate self = Ok tt ↔
  (catalogs_subcommand self = Some Subcommands.CREATE →
   Py.truthy (storage_type self) = true
   ∧ Py.truthy (default_base_location self) = true
   ∧ (catalog_type self = Some CatalogType.EXTERNAL → Py.truthy (remote_url self) = true))
  ∧ (catalogs_subcommand self = Some Subcommands.UPDATE →
     Py.truthy_list (allowed_locations self) = true →
     Py.truthy (storage_type self) = true)
  ∧ (storage_type self = Some StorageType.S3 →
     Py.truthy (role_arn self) = true
     ∧ Py.truthy (_has_azure_storage_info self) = false
     ∧ Py.truthy (_has_gcs_storage_info self) = false)
  ∧ (storage_type self = Some StorageType.AZURE →
     Py.truthy (tenant_id self) = true
     ∧ Py.truthy (_has_aws_storage_info self) = false
     ∧ Py.truthy (_has_gcs_storage_info self) = false)
  ∧ (storage_type self ≠ Some StorageType.S3 → storage_type self ≠ Some StorageType.AZURE →
     Py.truthy (_has_aws_storage_info self) = false
     ∧ Py.truthy (_has_azure_storage_info self) = false).
Proof.
  rewrite <- validate_create_Ok, <- validate_update_Ok, <- validate_storage_Ok_iff.
  split; [apply validate_Ok|].
  intros (H1 & H2 & H3). by rewrite validate_steps, H1, H2.
Qed.

(** X17 on [polaris catalogs delete c1]: with no option at all, every
    condition holds and the command passes. *)
Lemma validate_accepts_witness :
  validate (Case.plain "delete" "c1") = Ok tt.
Proof.
  apply validate_accepts.
  split; [discriminate|]. split; [discriminate|].
  split; [discriminate|]. split; [discriminate|].
  intros _ _. split; reflexivity.
Defined.
